(** * OpenWork: sandbox policy, history store, agent loop and subagent tool

    A shallow embedding of the core of the OpenWork agent
    ([openwork/sandbox/manager.py], [openwork/agent/context.py],
    [openwork/agent/loop.py], [openwork/agent/subagent.py]) and the
    properties of its specification, each settled against the code.

    Conventions of the embedding.
    - Python [int] is [Z]; [len] of a list is [Z.of_nat (length _)].
    - A Python value that comes out of [json.loads] or goes into a tool
      is a [pyval]; truthiness is [truthy], [str()] is [py_str].
    - [dict]s keyed by strings that are only looked up are [gmap string _];
      JSON objects keep their entries as an association list.
    - A call that may raise returns an [outcome]; only subclasses of
      [Exception] are modelled (the loop's handlers catch exactly those).
    - [datetime.now()] is a clock reading passed in explicitly.
    - Library functions whose body is not part of the repository
      ([Path.resolve], [json.loads], [repr] of a [str], [uuid4]) are
      section variables. *)

From stdpp Require Import base decidable option list gmap strings fin_maps.
From Stdlib Require Import ZArith Lia Ascii String.

#[local] Set Warnings "-register-all".
Open Scope Z_scope.
Open Scope string_scope.

(** ** Python values *)

Module Py.

(** The values [json.loads] can produce. A float is carried by its
    [repr] text, which determines it. *)
Inductive pyval : Type :=
| PNone
| PBool (b : bool)
| PInt (z : Z)
| PFloat (repr : string)
| PStr (s : string)
| PList (l : list pyval)
| PDict (d : list (string * pyval)).

(** [bool(v)] *)
Definition truthy (v : pyval) : bool :=
  match v with
  | PNone => false
  | PBool b => b
  | PInt z => negb (Z.eqb z 0)
  | PFloat r => negb (String.eqb r "0.0" || String.eqb r "-0.0")
  | PStr s => negb (String.eqb s "")
  | PList l => match l with [] => false | _ => true end
  | PDict d => match d with [] => false | _ => true end
  end.

(** [a or b] *)
Definition py_or (a b : pyval) : pyval := if truthy a then a else b.

(** [type(v).__name__] *)
Definition type_name (v : pyval) : string :=
  match v with
  | PNone => "NoneType"
  | PBool _ => "bool"
  | PInt _ => "int"
  | PFloat _ => "float"
  | PStr _ => "str"
  | PList _ => "list"
  | PDict _ => "dict"
  end.

(** Lookup in a JSON object: the value of the first entry with that key. *)
Fixpoint assoc (k : string) (d : list (string * pyval)) : option pyval :=
  match d with
  | [] => None
  | (k', v) :: d' => if String.eqb k k' then Some v else assoc k d'
  end.

(** [d.get(k, default)] *)
Definition dict_get (d : list (string * pyval)) (k : string) (default : pyval) : pyval :=
  match assoc k d with
  | Some v => v
  | None => default
  end.

(** Decimal digits of a natural number, most significant first. *)
Fixpoint digits_fuel (fuel : nat) (n : N) (acc : string) : string :=
  match fuel with
  | O => acc
  | S fuel' =>
      let d := String (ascii_of_N (48 + N.modulo n 10)) acc in
      if N.ltb n 10 then d else digits_fuel fuel' (N.div n 10) d
  end.

(** [str(z)] for an [int] *)
Definition str_of_int (z : Z) : string :=
  let n := Z.to_N (Z.abs z) in
  let ds := digits_fuel (S (N.to_nat (N.log2 n))) n "" in
  if Z.ltb z 0 then "-" ++ ds else ds.

(** [sep.join(parts)] *)
Fixpoint join (sep : string) (parts : list string) : string :=
  match parts with
  | [] => ""
  | [p] => p
  | p :: rest => p ++ sep ++ join sep rest
  end.

Section Repr.
(** [repr] of a [str] (quoting and escaping). *)
Variable repr_str : string -> string.

(** [repr(v)] *)
Fixpoint py_repr (v : pyval) : string :=
  match v with
  | PNone => "None"
  | PBool true => "True"
  | PBool false => "False"
  | PInt z => str_of_int z
  | PFloat r => r
  | PStr s => repr_str s
  | PList l => "[" ++ join ", " (map py_repr l) ++ "]"
  | PDict d =>
      "{" ++ join ", " (map (fun kv => repr_str (fst kv) ++ ": " ++ py_repr (snd kv)) d) ++ "}"
  end.

(** [str(v)], what an f-string field prints *)
Definition py_str (v : pyval) : string :=
  match v with
  | PStr s => s
  | _ => py_repr v
  end.
End Repr.

(** [str(x)] for [x : str | None] *)
Definition str_of_opt (o : option string) : string :=
  match o with
  | Some s => s
  | None => "None"
  end.

(** Exceptions: the class name and [str(e)]. *)
Record exn : Type := Exn { exn_type : string; exn_msg : string }.

Inductive outcome (A : Type) : Type :=
| Ok (a : A)
| Raise (e : exn).
Arguments Ok {A} a.
Arguments Raise {A} e.

End Py.
Export Py.

(** ** Paths ([pathlib.PurePosixPath]) *)

Module Pathlib.

(** A path is its root flag and its components; two paths are equal
    when both agree. [Path('/')] and [Path('.')] have no component. *)
Record Path : Type := MkPath { absolute : bool; parts : list string }.

#[global] Instance Path_eq_dec : EqDecision Path.
Proof. solve_decision. Defined.

(** [s.split(sep)] *)
Fixpoint split_on (sep : ascii) (s : string) : list string :=
  match s with
  | EmptyString => [""]
  | String c s' =>
      if Ascii.eqb c sep then "" :: split_on sep s'
      else match split_on sep s' with
           | [] => [String c ""]
           | w :: ws => String c w :: ws
           end
  end.

Definition starts_with_slash (s : string) : bool :=
  match s with
  | String c _ => Ascii.eqb c "/"
  | EmptyString => false
  end.

(** [Path(s)]: empty and ["."] components are dropped, [".."] is kept.
    (POSIX's separate root for exactly two leading slashes is not
    distinguished.) *)
Definition path_of_string (s : string) : Path :=
  {| absolute := starts_with_slash s;
     parts := List.filter (fun w => negb (String.eqb w "" || String.eqb w "."))
                (split_on "/" s) |}.

(** [p.parents]: the proper prefixes of [p], nearest first. *)
Definition parents (p : Path) : list Path :=
  map (fun k => MkPath (absolute p) (take k (parts p)))
      (reverse (seq 0 (List.length (parts p)))).

(** [x in p.parents] *)
Definition in_parents (x p : Path) : bool := bool_decide (x ∈ parents p).

(** [p.name] *)
Definition name (p : Path) : string := List.last (parts p) "".

(** [s.rfind(c)], scanning from index [i] with [found] the last hit so far. *)
Fixpoint rfind_from (c : ascii) (s : string) (i found : Z) : Z :=
  match s with
  | EmptyString => found
  | String a s' => rfind_from c s' (i + 1) (if Ascii.eqb a c then i else found)
  end.

Definition rfind (c : ascii) (s : string) : Z := rfind_from c s 0 (-1).

Definition len (s : string) : Z := Z.of_nat (String.length s).

(** [p.suffix]:
    [i = name.rfind('.'); name[i:] if 0 < i < len(name) - 1 else ''] *)
Definition suffix (p : Path) : string :=
  let nm := name p in
  let i := rfind "." nm in
  if Z.ltb 0 i && Z.ltb i (len nm - 1)
  then String.substring (Z.to_nat i) (Z.to_nat (len nm - i)) nm
  else "".

Definition lower_ascii (a : ascii) : ascii :=
  let n := nat_of_ascii a in
  if Nat.leb 65 n && Nat.leb n 90 then ascii_of_nat (n + 32) else a.

(** [s.lower()] on ASCII letters. *)
Fixpoint lower (s : string) : string :=
  match s with
  | EmptyString => EmptyString
  | String a s' => String (lower_ascii a) (lower s')
  end.

End Pathlib.
Export Pathlib.

(** ** [openwork/sandbox/manager.py] *)

Module Sandbox.

(** [SandboxConfig]; the container-related fields are not read by the
    checks below and are left out. *)
Record SandboxConfig : Type := MkSandboxConfig {
  allowed_paths : list Path;
  max_file_size : Z;
  allowed_extensions : gset string;
  blocked_extensions : gset string
}.

Section Manager.
(** [Path.resolve]: the absolute, symlink-free form of a path on the
    file system at hand. *)
Variable resolve : Path -> Path.

(** [SandboxManager.is_path_allowed] *)
Definition is_path_allowed (config : SandboxConfig) (path : Path) : bool :=
  let path := resolve path in
  match allowed_paths config with
  | [] => false
  | _ =>
      existsb (fun allowed =>
                 bool_decide (path = allowed)
                 || in_parents allowed path
                 || in_parents path allowed)
              (allowed_paths config)
  end.
End Manager.

(** [SandboxManager.is_extension_allowed] *)
Definition is_extension_allowed (config : SandboxConfig) (path : Path) : bool :=
  let ext := lower (suffix path) in
  if bool_decide (ext ∈ blocked_extensions config) then false
  else if negb (bool_decide (allowed_extensions config = ∅))
       then bool_decide (ext ∈ allowed_extensions config) || String.eqb ext ""
       else true.

End Sandbox.

(** ** [openwork/agent/context.py] *)

Module Ctx.

Inductive MessageRole : Type := SYSTEM | USER | ASSISTANT | TOOL.

#[global] Instance MessageRole_eq_dec : EqDecision MessageRole.
Proof. solve_decision. Defined.

(** [role.value] *)
Definition role_value (r : MessageRole) : string :=
  match r with
  | SYSTEM => "system"
  | USER => "user"
  | ASSISTANT => "assistant"
  | TOOL => "tool"
  end.

Record Message : Type := MkMessage {
  role : MessageRole;
  content : string;
  timestamp : Z;
  metadata : list (string * pyval)
}.

Record Observation : Type := MkObservation {
  tool_name : pyval;
  input_params : pyval;
  output : pyval;
  success : bool;
  error : option string;
  obs_timestamp : Z
}.

Record Context : Type := MkContext {
  task : string;
  allowed_paths : list Path;
  messages : list Message;
  observations : list Observation;
  ctx_metadata : list (string * pyval);
  max_history_length : Z
}.

Definition set_messages (ctx : Context) (ms : list Message) : Context :=
  {| task := task ctx; allowed_paths := allowed_paths ctx; messages := ms;
     observations := observations ctx; ctx_metadata := ctx_metadata ctx;
     max_history_length := max_history_length ctx |}.

Definition set_observations (ctx : Context) (os : list Observation) : Context :=
  {| task := task ctx; allowed_paths := allowed_paths ctx; messages := messages ctx;
     observations := os; ctx_metadata := ctx_metadata ctx;
     max_history_length := max_history_length ctx |}.

(** [len(l)] *)
Definition py_len {A : Type} (l : list A) : Z := Z.of_nat (List.length l).

(** The slice [l[i:]]: a negative [i] counts from the end, and both
    ends are clamped to the list. *)
Definition slice_from {A : Type} (i : Z) (l : list A) : list A :=
  let start := if Z.ltb i 0 then Z.max 0 (py_len l + i) else Z.min i (py_len l) in
  drop (Z.to_nat start) l.

Definition is_system (m : Message) : bool := bool_decide (role m = SYSTEM).

(** The body of [Context._trim_history] on the message list. *)
Definition trim (max_len : Z) (ms : list Message) : list Message :=
  if Z.ltb max_len (py_len ms) then
    let system_messages := List.filter is_system ms in
    let recent_messages := slice_from (- max_len + py_len system_messages) ms in
    system_messages ++ recent_messages
  else ms.

(** [Context._trim_history] *)
Definition _trim_history (ctx : Context) : Context :=
  set_messages ctx (trim (max_history_length ctx) (messages ctx)).

(** [Context.add_message]; [now] is the reading of [datetime.now()]
    that stamps the new message. *)
Definition add_message (ctx : Context) (r : MessageRole) (text : string)
    (md : list (string * pyval)) (now : Z) : Context :=
  _trim_history (set_messages ctx (messages ctx ++ [MkMessage r text now md])).

(** [Context(task=..., allowed_paths=..., max_history_length=...)],
    with [__post_init__]. *)
Definition new_context (tsk : string) (allowed : list Path) (max_len : Z) (now : Z) : Context :=
  let ctx := MkContext tsk allowed [] [] [] max_len in
  if negb (String.eqb tsk "") then add_message ctx USER tsk [] now else ctx.

Definition default_max_history_length : Z := 50.

(** [Context.is_path_allowed] *)
Definition is_path_allowed (resolve : Path -> Path) (ctx : Context) (path : Path) : bool :=
  let path := resolve path in
  existsb (fun allowed => bool_decide (path = allowed) || in_parents allowed path)
          (allowed_paths ctx).

(** [Context.get_messages_for_llm] *)
Definition get_messages_for_llm (ctx : Context) : list (string * string) :=
  map (fun msg => (role_value (role msg), content msg)) (messages ctx).

Definition newline : string := String (ascii_of_nat 10) EmptyString.

Section Observe.
Variable repr_str : string -> string.

(** [Context.add_observation]; [now] stamps the synthesized message. *)
Definition add_observation (ctx : Context) (observation : Observation) (now : Z) : Context :=
  let ctx := set_observations ctx (observations ctx ++ [observation]) in
  let tool_message := "Tool: " ++ py_str repr_str (tool_name observation) ++ newline in
  let tool_message :=
    if success observation
    then tool_message ++ "Output: " ++ py_str repr_str (output observation)
    else tool_message ++ "Error: " ++ str_of_opt (error observation) in
  add_message ctx TOOL tool_message [("tool_name", tool_name observation)] now.
End Observe.

(** A sequence of [add_message] calls, each with its role, text,
    metadata and time stamp. *)
Definition add_messages (ctx : Context)
    (calls : list (MessageRole * string * list (string * pyval) * Z)) : Context :=
  fold_left (fun c call =>
               match call with
               | (r, text, md, now) => add_message c r text md now
               end) calls ctx.

(** The message an [add_message] call creates. *)
Definition message_of (call : MessageRole * string * list (string * pyval) * Z) : Message :=
  match call with
  | (r, text, md, now) => MkMessage r text now md
  end.

End Ctx.

(** ** [openwork/tools/base.py] *)

Module Tools.

Record ToolResult : Type := MkToolResult {
  success : bool;
  output : pyval;
  error : option string;
  metadata : option (list (string * pyval))
}.

(** [ToolResult(success=False, output=None, error=msg)] *)
Definition failure (msg : string) : ToolResult :=
  {| success := false; output := PNone; error := Some msg; metadata := None |}.

End Tools.

(** ** [openwork/agent/loop.py] *)

Module Loop.

Inductive AgentState : Type := IDLE | THINKING | EXECUTING | VERIFYING | COMPLETE | ERROR.

(** The fields hold whatever the decoded JSON object held: the loop
    tests them for truthiness and never checks their types. *)
Record AgentDecision : Type := MkAgentDecision {
  thought : pyval;
  tool_name : pyval;
  tool_params : pyval;
  is_complete : pyval;
  final_answer : pyval;
  needs_verification : bool
}.

Record AgentResult : Type := MkAgentResult {
  success : bool;
  output : pyval;
  observations : list Ctx.Observation;
  error : option string;
  iterations : Z
}.

Section AgentLoop.
(** The state of the collaborators outside the loop: the model
    backend, the tools' file system, the observers. *)
Variable World : Type.
Variable resolve : Path -> Path.
(** [json.loads]: [None] stands for [json.JSONDecodeError]. *)
Variable json_loads : string -> option pyval.
Variable repr_str : string -> string.
(** The successive readings of [datetime.now()]. *)
Variable now : nat -> Z.

(** A tool: what the dispatcher reads of it. [execute] is the call
    [tool.execute( **params )] on a mapping; [execute_name] is how an
    error message names that method. *)
Record Tool : Type := MkTool {
  description : string;
  requires_path_check : bool;
  execute_name : string;
  execute : list (string * pyval) -> World -> outcome Tools.ToolResult * World
}.

(** The fields of an [AgentLoop] object. [system_prompt] is
    [SYSTEM_PROMPT] formatted with the tools' descriptions. *)
Record Agent : Type := MkAgent {
  llm : list (string * string) -> World -> outcome string * World;
  tools : gmap string Tool;
  max_iterations : Z;
  callbacks : list (string -> pyval -> World -> outcome unit * World);
  system_prompt : string
}.

(** What a run changes besides its context: the world, the loop's
    [state] attribute, the clock, and two ghost records, the stream
    of lifecycle events and the list of [tool.execute] calls made. *)
Record LoopState : Type := MkLoopState {
  world : World;
  state : AgentState;
  ticks : nat;
  events : list (string * pyval);
  calls : list (string * list (string * pyval))
}.

Definition set_world (st : LoopState) (w : World) : LoopState :=
  {| world := w; state := state st; ticks := ticks st; events := events st;
     calls := calls st |}.

Definition set_state (st : LoopState) (s : AgentState) : LoopState :=
  {| world := world st; state := s; ticks := ticks st; events := events st;
     calls := calls st |}.

(** [datetime.now()] *)
Definition clock (st : LoopState) : Z * LoopState :=
  (now (ticks st),
   {| world := world st; state := state st; ticks := S (ticks st);
      events := events st; calls := calls st |}).

(** [AgentLoop._notify_callbacks]: every callback runs, and what it
    raises is dropped. *)
Definition _notify_callbacks (self : Agent) (event : string) (data : pyval)
    (st : LoopState) : LoopState :=
  let w := fold_left (fun w callback => snd (callback event data w))
                     (callbacks self) (world st) in
  {| world := w; state := state st; ticks := ticks st;
     events := events st ++ [(event, data)]; calls := calls st |}.

(** The decision built in the [except json.JSONDecodeError] branch. *)
Definition fallback_decision (response : string) : AgentDecision :=
  {| thought := PStr response; tool_name := PNone; tool_params := PDict [];
     is_complete := PBool true; final_answer := PStr response;
     needs_verification := false |}.

(** [AgentLoop._get_decision] *)
Definition _get_decision (self : Agent) (context : Ctx.Context)
    (st : LoopState) : outcome AgentDecision * LoopState :=
  let messages := Ctx.get_messages_for_llm context in
  match llm self messages (world st) with
  | (Raise e, w) => (Raise e, set_world st w)
  | (Ok response, w) =>
      let st := set_world st w in
      match json_loads response with
      | None => (Ok (fallback_decision response), st)
      | Some (PDict data) =>
          (Ok {| thought := dict_get data "thought" (PStr "");
                 tool_name := dict_get data "tool" PNone;
                 tool_params := dict_get data "params" (PDict []);
                 is_complete := dict_get data "is_complete" (PBool false);
                 final_answer := dict_get data "answer" PNone;
                 needs_verification := false |}, st)
      | Some v =>
          (Raise (Exn "AttributeError"
                      ("'" ++ type_name v ++ "' object has no attribute 'get'")), st)
      end
  end.

(** [tool_name not in self.tools] followed by [self.tools[tool_name]]:
    a list or a dict cannot be hashed, and only a [str] can be a key
    of the registry. *)
Definition find_tool (self : Agent) (name : pyval) : outcome (option (string * Tool)) :=
  match name with
  | PList _ | PDict _ =>
      Raise (Exn "TypeError" ("unhashable type: '" ++ type_name name ++ "'"))
  | PStr s => Ok (option_map (fun t => (s, t)) (tools self !! s))
  | _ => Ok None
  end.

(** The sandbox gate of [_execute_tool]: [Ok (Some r)] is the early
    return of the rejection [r], [Ok None] falls through to the call. *)
Definition path_gate (tool : Tool) (params : pyval) (context : Ctx.Context)
    : outcome (option Tools.ToolResult) :=
  if requires_path_check tool then
    match params with
    | PDict d =>
        let path := py_or (dict_get d "path" PNone) (dict_get d "file_path" PNone) in
        if truthy path then
          match path with
          | PStr s =>
              if negb (Ctx.is_path_allowed resolve context (path_of_string s))
              then Ok (Some (Tools.failure ("Path not allowed: " ++ s)))
              else Ok None
          | _ =>
              Raise (Exn "TypeError"
                         ("expected str, bytes or os.PathLike object, not "
                          ++ type_name path))
          end
        else Ok None
    | _ =>
        Raise (Exn "AttributeError"
                   ("'" ++ type_name params ++ "' object has no attribute 'get'"))
    end
  else Ok None.

(** The [try: return await tool.execute( **params )] block. *)
Definition invoke (name : string) (tool : Tool) (params : pyval)
    (st : LoopState) : Tools.ToolResult * LoopState :=
  match params with
  | PDict d =>
      let (r, w) := execute tool d (world st) in
      let st := {| world := w; state := state st; ticks := ticks st;
                   events := events st; calls := calls st ++ [(name, d)] |} in
      match r with
      | Ok result => (result, st)
      | Raise e => (Tools.failure (exn_msg e), st)
      end
  | _ =>
      (Tools.failure (execute_name tool
                      ++ "() argument after ** must be a mapping, not "
                      ++ type_name params), st)
  end.

(** [AgentLoop._execute_tool] *)
Definition _execute_tool (self : Agent) (name params : pyval)
    (context : Ctx.Context) (st : LoopState)
    : outcome Tools.ToolResult * LoopState :=
  match find_tool self name with
  | Raise e => (Raise e, st)
  | Ok None => (Ok (Tools.failure ("Unknown tool: " ++ py_str repr_str name)), st)
  | Ok (Some (key, tool)) =>
      match path_gate tool params context with
      | Raise e => (Raise e, st)
      | Ok (Some rejection) => (Ok rejection, st)
      | Ok None => let (r, st) := invoke key tool params st in (Ok r, st)
      end
  end.

(** How one pass through the body of the [while] ends: with a
    [return], or at the bottom of the body with the context as it
    then is. *)
Inductive step : Type :=
| Return (result : AgentResult)
| Continue (context : Ctx.Context).

(** The state in which a tool is dispatched: [self.state] set and the
    ["executing"] event sent. *)
Definition executing (self : Agent) (decision : AgentDecision)
    (st : LoopState) : LoopState :=
  _notify_callbacks self "executing"
    (PDict [("tool", tool_name decision); ("params", tool_params decision)])
    (set_state st EXECUTING).

(** [Observation(tool_name=..., input_params=..., output=result.output
    if result.success else None, success=..., error=...)] *)
Definition observation_of (decision : AgentDecision) (result : Tools.ToolResult)
    (t_obs : Z) : Ctx.Observation :=
  {| Ctx.tool_name := tool_name decision;
     Ctx.input_params := tool_params decision;
     Ctx.output := if Tools.success result then Tools.output result else PNone;
     Ctx.success := Tools.success result;
     Ctx.error := Tools.error result;
     Ctx.obs_timestamp := t_obs |}.

(** The body of the [while] loop of [AgentLoop.run] from the test
    of [decision.is_complete] on. ([print] under [verbose] has no
    effect on the run and is omitted.) *)
Definition act (self : Agent) (iterations : Z) (context : Ctx.Context)
    (decision : AgentDecision) (st : LoopState) : outcome step * LoopState :=
  if truthy (is_complete decision) then
    let st := set_state st COMPLETE in
    let st := _notify_callbacks self "complete"
                (PDict [("answer", final_answer decision)]) st in
    (Ok (Return {| success := true;
                   output := py_or (final_answer decision) (PStr "Task completed.");
                   observations := Ctx.observations context;
                   error := None;
                   iterations := iterations |}), st)
  else if truthy (tool_name decision) then
    let st := executing self decision st in
    match _execute_tool self (tool_name decision) (tool_params decision) context st with
    | (Raise e, st) => (Raise e, st)
    | (Ok result, st) =>
        let (t_obs, st) := clock st in
        let observation := observation_of decision result t_obs in
        let (t_msg, st) := clock st in
        (Ok (Continue (Ctx.add_observation repr_str context observation t_msg)), st)
    end
  else (Ok (Continue context), st).

(** The state in which the model is asked: [self.state] set and the
    ["thinking"] event sent. *)
Definition thinking (self : Agent) (iterations : Z) (st : LoopState) : LoopState :=
  _notify_callbacks self "thinking" (PDict [("iteration", PInt iterations)])
                    (set_state st THINKING).

(** The whole body of the [while] loop, entered with [iterations]
    already incremented. *)
Definition iteration (self : Agent) (iterations : Z) (context : Ctx.Context)
    (st : LoopState) : outcome step * LoopState :=
  match _get_decision self context (thinking self iterations st) with
  | (Raise e, st) => (Raise e, st)
  | (Ok decision, st) => act self iterations context decision st
  end.

(** The [return] after the [while] loop. *)
Definition max_iterations_reached (self : Agent) (iterations : Z)
    (context : Ctx.Context) (st : LoopState) : AgentResult * LoopState :=
  ({| success := false;
      output := PStr "";
      observations := Ctx.observations context;
      error := Some ("Max iterations (" ++ str_of_int (max_iterations self) ++ ") reached");
      iterations := iterations |},
   set_state st ERROR).

(** The [except Exception as e] handler. *)
Definition on_exception (self : Agent) (e : exn) (iterations : Z)
    (context : Ctx.Context) (st : LoopState) : AgentResult * LoopState :=
  let st := set_state st ERROR in
  let st := _notify_callbacks self "error" (PDict [("error", PStr (exn_msg e))]) st in
  ({| success := false;
      output := PStr "";
      observations := Ctx.observations context;
      error := Some (exn_msg e);
      iterations := iterations |}, st).

(** [while iterations < self.max_iterations: ...] inside its [try].
    [remaining] is the number of passes the test still lets through,
    [max_iterations - iterations] when that is positive and [0]
    otherwise, so the test succeeds exactly when it is a successor.
    An exception leaves the loop from inside the pass that raised it,
    with that pass's counter and context. *)
Fixpoint while_loop (self : Agent) (remaining : nat) (iterations : Z)
    (context : Ctx.Context) (st : LoopState) : AgentResult * LoopState :=
  match remaining with
  | O => max_iterations_reached self iterations context st
  | S remaining' =>
      let iterations := iterations + 1 in
      match iteration self iterations context st with
      | (Raise e, st) => on_exception self e iterations context st
      | (Ok (Return result), st) => (result, st)
      | (Ok (Continue context), st) => while_loop self remaining' iterations context st
      end
  end.

(** The context [run] starts from: the task as a user message (when
    it is not empty), then the system prompt. *)
Definition initial_context (self : Agent) (task : string)
    (allowed_paths : option (list string)) (st : LoopState)
    : Ctx.Context * LoopState :=
  let allowed := map (fun p => resolve (path_of_string p)) (default [] allowed_paths) in
  let (t_task, st_task) := clock st in
  let context := Ctx.new_context task allowed Ctx.default_max_history_length t_task in
  let st := if String.eqb task "" then st else st_task in
  let (t_sys, st) := clock st in
  (Ctx.add_message context Ctx.SYSTEM (system_prompt self) [] t_sys, st).

(** [AgentLoop.run] *)
Definition run (self : Agent) (task : string) (allowed_paths : option (list string))
    (st : LoopState) : AgentResult * LoopState :=
  let (context, st) := initial_context self task allowed_paths st in
  while_loop self (Z.to_nat (max_iterations self)) 0 context st.
End AgentLoop.

Arguments MkTool {World}.
Arguments MkAgent {World}.
Arguments MkLoopState {World}.
Arguments description {World}.
Arguments requires_path_check {World}.
Arguments execute_name {World}.
Arguments execute {World}.
Arguments llm {World}.
Arguments tools {World}.
Arguments max_iterations {World}.
Arguments callbacks {World}.
Arguments system_prompt {World}.
Arguments world {World}.
Arguments state {World}.
Arguments ticks {World}.
Arguments events {World}.
Arguments calls {World}.
Arguments set_world {World}.
Arguments set_state {World}.
Arguments clock {World}.
Arguments _notify_callbacks {World}.
Arguments _get_decision {World}.
Arguments find_tool {World}.
Arguments path_gate {World}.
Arguments invoke {World}.
Arguments _execute_tool {World}.
Arguments executing {World}.
Arguments act {World}.
Arguments thinking {World}.
Arguments iteration {World}.
Arguments max_iterations_reached {World}.
Arguments on_exception {World}.
Arguments while_loop {World}.
Arguments initial_context {World}.
Arguments run {World}.

End Loop.

(** ** [openwork/agent/subagent.py] *)

Module Subagent.

Inductive SubagentStatus : Type := PENDING | RUNNING | COMPLETED | FAILED | CANCELLED.

Record SubagentTask : Type := MkSubagentTask {
  id : string;
  description : pyval;
  allowed_paths : list string;
  parent_context : pyval;
  status : SubagentStatus;
  result : option Loop.AgentResult;
  error : option string;
  created_at : Z;
  completed_at : option Z
}.

Record SubagentResult : Type := MkSubagentResult {
  task_id : string;
  success : bool;
  output : pyval;
  summary : string;
  res_error : option string
}.

(** [len(v)]; strings are counted in bytes, which is [len] on ASCII. *)
Definition len_of (v : pyval) : outcome Z :=
  match v with
  | PList l => Ok (Ctx.py_len l)
  | PDict d => Ok (Ctx.py_len d)
  | PStr s => Ok (Pathlib.len s)
  | _ => Raise (Exn "TypeError" ("object of type '" ++ type_name v ++ "' has no len()"))
  end.

Fixpoint chars (s : string) : list pyval :=
  match s with
  | EmptyString => []
  | String a s' => PStr (String a EmptyString) :: chars s'
  end.

(** The items [for st in v] goes through. *)
Definition items_of (v : pyval) : outcome (list pyval) :=
  match v with
  | PList l => Ok l
  | PDict d => Ok (map (fun kv => PStr (fst kv)) d)
  | PStr s => Ok (chars s)
  | _ => Raise (Exn "TypeError" ("'" ++ type_name v ++ "' object is not iterable"))
  end.

Section Manager.
Variable World : Type.
(** The successive values of [str(uuid4())]. *)
Variable uuid4 : nat -> string.
Variable now : nat -> Z.

(** A [SubagentManager] with the world its children act on: the task
    table, the number of identifiers and of clock readings drawn, and
    a ghost record of each fan-out (the ids it was started with). *)
Record Manager : Type := MkManager {
  tasks : gmap string SubagentTask;
  drawn : nat;
  ticks : nat;
  launched : list (list string);
  world : World
}.

(** [SubagentManager.execute_parallel]: the child loops run
    interleaved under the semaphore; what they do to the manager and
    the world is left open, only that they were started is recorded. *)
Variable execute_parallel :
  list SubagentTask -> Manager -> outcome (list SubagentResult) * Manager.

(** [SubagentManager.create_task] *)
Definition create_task (self : Manager) (descr : pyval) (allowed : list string)
    (parent : pyval) : SubagentTask * Manager :=
  let task := {| id := uuid4 (drawn self);
                 description := descr;
                 allowed_paths := allowed;
                 parent_context := py_or parent (PDict []);
                 status := PENDING;
                 result := None;
                 error := None;
                 created_at := now (ticks self);
                 completed_at := None |} in
  (task, {| tasks := <[id task := task]> (tasks self);
            drawn := S (drawn self);
            ticks := S (ticks self);
            launched := launched self;
            world := world self |}).

(** [st["description"]] *)
Definition subscript_description (st : pyval) : outcome pyval :=
  match st with
  | PDict d =>
      match assoc "description" d with
      | Some v => Ok v
      | None => Raise (Exn "KeyError" "'description'")
      end
  | PStr _ => Raise (Exn "TypeError" "string indices must be integers, not 'str'")
  | PList _ => Raise (Exn "TypeError" "list indices must be integers or slices, not str")
  | _ => Raise (Exn "TypeError" ("'" ++ type_name st ++ "' object is not subscriptable"))
  end.

(** The list comprehension of [spawn_and_wait]: one task per entry,
    registered as it is created; an entry without a description
    stops it, the tasks created before staying registered. *)
Fixpoint create_tasks (self : Manager) (entries : list pyval) (allowed : list string)
    : outcome (list SubagentTask) * Manager :=
  match entries with
  | [] => (Ok [], self)
  | st :: rest =>
      match subscript_description st with
      | Raise e => (Raise e, self)
      | Ok descr =>
          let parent := match st with
                        | PDict d => dict_get d "context" (PDict [])
                        | _ => PDict []
                        end in
          let (task, self) := create_task self descr allowed parent in
          match create_tasks self rest allowed with
          | (Ok created, self) => (Ok (task :: created), self)
          | (Raise e, self) => (Raise e, self)
          end
      end
  end.

(** [SubagentManager.spawn_and_wait] *)
Definition spawn_and_wait (self : Manager) (subtasks : pyval) (allowed : list string)
    : outcome (list SubagentResult) * Manager :=
  match items_of subtasks with
  | Raise e => (Raise e, self)
  | Ok entries =>
      match create_tasks self entries allowed with
      | (Raise e, self) => (Raise e, self)
      | (Ok created, self) =>
          execute_parallel created
            {| tasks := tasks self; drawn := drawn self; ticks := ticks self;
               launched := launched self ++ [map id created];
               world := world self |}
      end
  end.

Definition result_entry (r : SubagentResult) : pyval :=
  PDict [("task_id", PStr (task_id r)); ("success", PBool (success r));
         ("summary", PStr (summary r))].

(** [SubagentTool.execute]; [allowed] is the tool's [allowed_paths]. *)
Definition execute (allowed : list string) (kwargs : list (string * pyval))
    (self : Manager) : outcome Tools.ToolResult * Manager :=
  let subtasks := dict_get kwargs "subtasks" (PList []) in
  if negb (truthy subtasks) then
    (Ok (Tools.failure "No subtasks provided"), self)
  else
    match len_of subtasks with
    | Raise e => (Raise e, self)
    | Ok n =>
        if Z.ltb 10 n then
          (Ok (Tools.failure "Maximum 10 subtasks allowed"), self)
        else
          match spawn_and_wait self subtasks allowed with
          | (Raise e, self) => (Raise e, self)
          | (Ok results, self) =>
              let success_count := Ctx.py_len (List.filter success results) in
              (Ok {| Tools.success := Z.ltb 0 success_count;
                     Tools.output :=
                       PDict [("total", PInt (Ctx.py_len results));
                              ("successful", PInt success_count);
                              ("failed", PInt (Ctx.py_len results - success_count));
                              ("results", PList (map result_entry results))];
                     Tools.error := None;
                     Tools.metadata := Some [("subtask_count", PInt n)] |}, self)
          end
    end.
End Manager.

Arguments MkManager {World}.
Arguments tasks {World}.
Arguments drawn {World}.
Arguments ticks {World}.
Arguments launched {World}.
Arguments world {World}.
Arguments create_task {World}.
Arguments create_tasks {World}.
Arguments spawn_and_wait {World}.
Arguments execute {World}.

End Subagent.

(** ** The specification's own predicates

    Stated in the words of the specification, to be compared with the
    functions above. *)

Module Spec.

(** [p] lies strictly below [root]: same kind of root, and the
    components of [root] followed by at least one more. *)
Definition is_descendant (p root : Path) : Prop :=
  absolute p = absolute root /\
  exists rest, rest <> [] /\ parts p = (parts root ++ rest)%list.

(** "The resolved absolute path equals, or is a descendant of, at
    least one configured allowed root." *)
Definition path_allowed (resolve : Path -> Path) (roots : list Path) (p : Path) : Prop :=
  exists root, root ∈ roots /\ (resolve p = root \/ is_descendant (resolve p) root).


(** The number of system-role messages a list holds, each counted as
    often as it occurs. *)
Definition system_count (ms : list Ctx.Message) : Z :=
  Ctx.py_len (List.filter Ctx.is_system ms).

(** "Output: final answer or a default "Task completed." string",
    the default standing in for an absent answer. *)
Definition answer_or_default (decision : Loop.AgentDecision) : pyval :=
  match Loop.final_answer decision with
  | PNone => PStr "Task completed."
  | answer => answer
  end.

(** The lifecycle events of [n] passes that only think, the first of
    them numbered [iterations + 1]. *)
Fixpoint thinking_events (iterations : Z) (n : nat) : list (string * pyval) :=
  match n with
  | O => []
  | S n' =>
      ("thinking", PDict [("iteration", PInt (iterations + 1))])
        :: thinking_events (iterations + 1) n'
  end.

(** The model "always yields an incomplete decision naming no tool":
    whatever it is shown, it replies with a JSON object whose
    [is_complete] and [tool] entries are absent or falsy. *)
Definition always_idle {World : Type} (json_loads : string -> option pyval)
    (self : Loop.Agent World) : Prop :=
  forall msgs w, exists response d w',
    Loop.llm self msgs w = (Ok response, w') /\
    json_loads response = Some (PDict d) /\
    truthy (dict_get d "is_complete" (PBool false)) = false /\
    truthy (dict_get d "tool" PNone) = false.

(** The model always gives the reply [response]. *)
Definition always_replies {World : Type} (self : Loop.Agent World) (response : string) : Prop :=
  forall msgs w, exists w', Loop.llm self msgs w = (Ok response, w').

End Spec.

(** ** Concrete inputs

      The configurations, stores and agents at which the properties below
      are evaluated. *)

Module Examples.

(** A file system without symbolic links, on an absolute normalised
    path: [resolve] returns the path itself. *)
Definition resolve_plain (p : Path) : Path := p.

Definition project_root : Path := path_of_string "/home/user/project".

Definition project_only : Sandbox.SandboxConfig :=
  {| Sandbox.allowed_paths := [project_root];
     Sandbox.max_file_size := 104857600;
     Sandbox.allowed_extensions := {[ ".txt" ]};
     Sandbox.blocked_extensions := {[ ".exe" ]} |}.



Definition ceiling_one : Ctx.Context := Ctx.MkContext "" [] [] [] [] 1.

Definition two_system_calls : list (Ctx.MessageRole * string * list (string * pyval) * Z) :=
  [(Ctx.SYSTEM, "first", [], 0); (Ctx.SYSTEM, "second", [], 1)].

Definition ceiling_three : Ctx.Context := Ctx.MkContext "" [] [] [] [] 3.

Definition task_prompt_result : list (Ctx.MessageRole * string * list (string * pyval) * Z) :=
  [(Ctx.USER, "task", [], 0); (Ctx.SYSTEM, "prompt", [], 1);
   (Ctx.TOOL, "first result", [], 2)].

Definition user_msg (text : string) (now : Z) : Ctx.Message :=
  Ctx.MkMessage Ctx.USER text now [].

Definition system_msg (text : string) (now : Z) : Ctx.Message :=
  Ctx.MkMessage Ctx.SYSTEM text now [].

(** [json.loads] on the replies used below: [{}], [42] and [null]
    decode as they do in Python, and no other reply used below is
    JSON. *)
Definition json_loads_sample (reply : string) : option pyval :=
  if String.eqb reply "{}" then Some (PDict [])
  else if String.eqb reply "42" then Some (PInt 42)
  else if String.eqb reply "null" then Some PNone
  else None.

(** [repr] of a string that needs no escaping. *)
Definition repr_sample (s : string) : string := "'" ++ s ++ "'".

Definition clock_sample (n : nat) : Z := Z.of_nat n.

(** A stand-in for [FileTool]: it requires the path check and reports
    success without touching anything. *)
Definition file_tool {World : Type} : Loop.Tool World :=
  {| Loop.description := "Perform file system operations";
     Loop.requires_path_check := true;
     Loop.execute_name := "openwork.tools.file_tool.FileTool.execute";
     Loop.execute := fun _ w => (Ok (Tools.MkToolResult true (PStr "written") None None), w) |}.

(** A loop whose model always gives the same reply. *)
Definition constant_agent (reply : string) (budget : Z) : Loop.Agent unit :=
  {| Loop.llm := fun _ w => (Ok reply, w);
     Loop.tools := {[ "file" := file_tool ]};
     Loop.max_iterations := budget;
     Loop.callbacks := [];
     Loop.system_prompt := "You are OpenWork." |}.

(** The double quote, and a word between double quotes. *)
Definition dquote : string := String (ascii_of_nat 34) EmptyString.
Definition quoted (s : string) : string := dquote ++ s ++ dquote.

(** The reply [{"tool": "file", "params": {"path": "/etc/passwd"}}]. *)
Definition write_outside_reply : string :=
  "{" ++ quoted "tool" ++ ": " ++ quoted "file" ++ ", " ++ quoted "params" ++ ": {"
      ++ quoted "path" ++ ": " ++ quoted "/etc/passwd" ++ "}}".

(** [json.loads] on [write_outside_reply] and on the replies of
    [json_loads_sample]. *)
Definition json_loads_scenario (reply : string) : option pyval :=
  if String.eqb reply write_outside_reply
  then Some (PDict [("tool", PStr "file"); ("params", PDict [("path", PStr "/etc/passwd")])])
  else json_loads_sample reply.

(** A loop whose model first asks to write outside the allowed
    directory and then answers ["Done"]; the world counts its calls. *)
Definition scenario_agent : Loop.Agent nat :=
  {| Loop.llm := fun _ n => (Ok (if Nat.eqb n 0 then write_outside_reply else "Done"), S n);
     Loop.tools := {[ "file" := file_tool ]};
     Loop.max_iterations := 20;
     Loop.callbacks := [];
     Loop.system_prompt := "You are OpenWork." |}.

Definition scenario_start : Loop.LoopState nat :=
  {| Loop.world := 0%nat; Loop.state := Loop.IDLE; Loop.ticks := 0%nat;
     Loop.events := []; Loop.calls := [] |}.

Definition idle_state : Loop.LoopState unit :=
  {| Loop.world := tt; Loop.state := Loop.IDLE; Loop.ticks := 0%nat;
     Loop.events := []; Loop.calls := [] |}.

Definition project_context : Ctx.Context :=
  Ctx.MkContext "task" [project_root] [] [] [] 50.

Definition write_decision (params : list (string * pyval)) : Loop.AgentDecision :=
  {| Loop.thought := PStr "write the file";
     Loop.tool_name := PStr "file";
     Loop.tool_params := PDict params;
     Loop.is_complete := PBool false;
     Loop.final_answer := PNone;
     Loop.needs_verification := false |}.

Definition uuid_sample (n : nat) : string := "task-" ++ str_of_int (Z.of_nat n).

(** A manager that has created no task yet. *)
Definition empty_manager : Subagent.Manager unit :=
  {| Subagent.tasks := ∅; Subagent.drawn := 0%nat; Subagent.ticks := 0%nat;
     Subagent.launched := []; Subagent.world := tt |}.

(** A fan-out in which every child succeeds at once. *)
Definition all_succeed (created : list Subagent.SubagentTask) (self : Subagent.Manager unit)
    : outcome (list Subagent.SubagentResult) * Subagent.Manager unit :=
  (Ok (map (fun t => Subagent.MkSubagentResult (Subagent.id t) true (PStr "ok")
                       "Completed: ok" None) created), self).

Definition subtask (text : string) : pyval := PDict [("description", PStr text)].

Definition eleven_subtasks : list pyval :=
  map subtask ["a"; "b"; "c"; "d"; "e"; "f"; "g"; "h"; "i"; "j"; "k"].

End Examples.

(** ** Further operations of the same files *)

(** *** [openwork/sandbox/manager.py]: the allowed list and validation *)

Module SandboxOps.
Import Sandbox.

Definition set_allowed_paths (config : SandboxConfig) (ps : list Path) : SandboxConfig :=
  {| allowed_paths := ps;
     max_file_size := max_file_size config;
     allowed_extensions := allowed_extensions config;
     blocked_extensions := blocked_extensions config |}.

(** [l.remove(x)]: the first element equal to [x] goes. (It raises
    when there is none; the caller below tests membership first.) *)
Fixpoint list_remove (x : Path) (l : list Path) : list Path :=
  match l with
  | [] => []
  | y :: l' => if bool_decide (x = y) then l' else y :: list_remove x l'
  end.

(** [str(p)] *)
Definition str_of_path (p : Path) : string :=
  if absolute p then "/" ++ join "/" (parts p)
  else match parts p with
       | [] => "."
       | _ => join "/" (parts p)
       end.

Section Ops.
Variable resolve : Path -> Path.
(** What the checks read of the file system, taken once per call:
    [Path.exists], [Path.is_file] and [Path.stat().st_size]. *)
Variable path_exists : Path -> bool.
Variable is_file : Path -> bool.
Variable st_size : Path -> Z.

(** [SandboxManager.add_allowed_path] *)
Definition add_allowed_path (config : SandboxConfig) (path : Path) : SandboxConfig :=
  let path := resolve path in
  if negb (bool_decide (path ∈ allowed_paths config))
  then set_allowed_paths config (allowed_paths config ++ [path])
  else config.

(** [SandboxManager.remove_allowed_path] *)
Definition remove_allowed_path (config : SandboxConfig) (path : Path) : SandboxConfig :=
  let path := resolve path in
  if bool_decide (path ∈ allowed_paths config)
  then set_allowed_paths config (list_remove path (allowed_paths config))
  else config.

(** [SandboxManager.validate_path]; [is_path_allowed] is handed the
    resolved path and resolves it once more. *)
Definition validate_path (config : SandboxConfig) (path : Path) : bool * option string :=
  let path := resolve path in
  if negb (is_path_allowed resolve config path) then
    (false, Some ("Path not in allowed directories: " ++ str_of_path path))
  else if path_exists path && is_file path then
    if negb (is_extension_allowed config path) then
      (false, Some ("File extension not allowed: " ++ suffix path))
    else if Z.ltb (max_file_size config) (st_size path) then
      (false, Some ("File exceeds size limit: " ++ str_of_int (st_size path) ++ " bytes"))
    else (true, None)
  else (true, None).
End Ops.

End SandboxOps.

(** *** [openwork/agent/context.py]: sequences of observations *)

Module CtxOps.

(** A sequence of [add_observation] calls, each with its observation
    and the time stamp of its synthesized message. *)
Definition add_observations (repr_str : string -> string) (ctx : Ctx.Context)
    (calls : list (Ctx.Observation * Z)) : Ctx.Context :=
  fold_left (fun c call => Ctx.add_observation repr_str c (fst call) (snd call)) calls ctx.

(** The message [add_observation] synthesizes for an observation. *)
Definition tool_message (repr_str : string -> string) (observation : Ctx.Observation)
    (now : Z) : Ctx.Message :=
  {| Ctx.role := Ctx.TOOL;
     Ctx.content :=
       if Ctx.success observation
       then ("Tool: " ++ py_str repr_str (Ctx.tool_name observation) ++ Ctx.newline)
              ++ "Output: " ++ py_str repr_str (Ctx.output observation)
       else ("Tool: " ++ py_str repr_str (Ctx.tool_name observation) ++ Ctx.newline)
              ++ "Error: " ++ str_of_opt (Ctx.error observation);
     Ctx.timestamp := now;
     Ctx.metadata := [("tool_name", Ctx.tool_name observation)] |}.

End CtxOps.

(** *** [openwork/agent/loop.py]: the contexts and records of a run *)

Module LoopOps.

(** A tool call as its observation shows it: the name and the
    parameter mapping. *)
Definition call_as_observed (call : string * list (string * pyval)) : pyval * pyval :=
  (PStr (fst call), PDict (snd call)).

Definition observed (o : Ctx.Observation) : pyval * pyval :=
  (Ctx.tool_name o, Ctx.input_params o).

(** The history of a run: at most two leading messages, one of them
    the only system message, followed by messages that are not system
    messages, within 50 in all. *)
Definition prompt_leads (ms : list Ctx.Message) : Prop :=
  Ctx.py_len ms <= 50 /\
  exists pre rest,
    ms = (pre ++ rest)%list /\
    (List.length pre <= 2)%nat /\
    Spec.system_count pre = 1 /\
    Forall (fun m => Ctx.role m <> Ctx.SYSTEM) rest.

Section Reach.
Variable World : Type.
Variable resolve : Path -> Path.
Variable json_loads : string -> option pyval.
Variable repr_str : string -> string.
Variable now : nat -> Z.

(** The contexts the passes of a run go through: the one it starts
    from, and the one each pass that reaches the bottom of the loop
    body hands to the next. *)
Inductive reachable (self : Loop.Agent World) (start : Ctx.Context) : Ctx.Context -> Prop :=
| reachable_start : reachable self start start
| reachable_pass (context context' : Ctx.Context) (iterations : Z)
    (st st' : Loop.LoopState World) :
    reachable self start context ->
    Loop.iteration resolve json_loads repr_str now self iterations context st
    = (Ok (Loop.Continue context'), st') ->
    reachable self start context'.
End Reach.

Arguments reachable {World}.

End LoopOps.

(** *** [openwork/tools/base.py]: parameter validation *)

Module ToolsOps.

(** [BaseTool.validate_params]; [required] is
    [self.parameters.get("required", [])], [kwargs] the keyword
    arguments. *)
Fixpoint validate_params (required : list string) (kwargs : list (string * pyval))
    : bool * option string :=
  match required with
  | [] => (true, None)
  | param :: rest =>
      match assoc param kwargs with
      | None => (false, Some ("Missing required parameter: " ++ param))
      | Some _ => validate_params rest kwargs
      end
  end.

End ToolsOps.

(** *** [openwork/agent/subagent.py]: lookup, cancellation, summaries *)

Module SubagentOps.
Import Subagent.

Definition set_status (task : SubagentTask) (s : SubagentStatus) : SubagentTask :=
  {| id := id task; description := description task;
     allowed_paths := allowed_paths task; parent_context := parent_context task;
     status := s; result := result task; error := error task;
     created_at := created_at task; completed_at := completed_at task |}.

Definition is_pending (s : SubagentStatus) : bool :=
  match s with
  | PENDING => true
  | _ => false
  end.

(** [SubagentManager.get_task] *)
Definition get_task {World : Type} (self : Manager World) (task_id : string)
    : option SubagentTask :=
  tasks self !! task_id.

(** [SubagentManager.cancel_task]: the task object found in the table
    is the one whose status is set. *)
Definition cancel_task {World : Type} (self : Manager World) (task_id : string)
    : bool * Manager World :=
  match tasks self !! task_id with
  | Some task =>
      if is_pending (status task) then
        (true, {| tasks := <[task_id := set_status task CANCELLED]> (tasks self);
                  drawn := drawn self; ticks := ticks self;
                  launched := launched self; world := world self |})
      else (false, self)
  | None => (false, self)
  end.

(** [SubagentManager._summarize_result]; the text is cut at 500
    characters (bytes here, which is the same on ASCII). *)
Definition _summarize_result (repr_str : string -> string) (result : Loop.AgentResult)
    : string :=
  if Loop.success result then
    let output := py_str repr_str (Loop.output result) in
    let output := if Z.ltb 500 (Pathlib.len output)
                  then String.substring 0 500 output ++ "..."
                  else output in
    "Completed: " ++ output
  else "Failed: " ++ str_of_opt (Loop.error result).

End SubagentOps.

(** *** Concrete inputs for the further operations *)

Module MoreExamples.
Import Examples.

(** A tool without path check whose call always raises. *)
Definition flaky_tool : Loop.Tool unit :=
  {| Loop.description := "Search the web";
     Loop.requires_path_check := false;
     Loop.execute_name := "openwork.tools.web_tool.WebTool.execute";
     Loop.execute := fun _ w => (Raise (Exn "TimeoutError" "request timed out"), w) |}.

Definition two_tool_agent : Loop.Agent unit :=
  {| Loop.llm := fun _ w => (Ok "Done", w);
     Loop.tools := {[ "file" := file_tool; "web" := flaky_tool ]};
     Loop.max_iterations := 20;
     Loop.callbacks := [];
     Loop.system_prompt := "You are OpenWork." |}.

(** The context the scenario run starts from, the state it is then
    in, and the context its first pass hands on. *)
Definition scenario_context : Ctx.Context :=
  fst (Loop.initial_context resolve_plain clock_sample scenario_agent
         "create summary.txt" (Some ["/home/user/project"]) scenario_start).

Definition scenario_state : Loop.LoopState nat :=
  snd (Loop.initial_context resolve_plain clock_sample scenario_agent
         "create summary.txt" (Some ["/home/user/project"]) scenario_start).

Definition scenario_second_context : Ctx.Context :=
  match Loop.iteration resolve_plain json_loads_scenario repr_sample clock_sample
          scenario_agent 1 scenario_context scenario_state with
  | (Ok (Loop.Continue context), _) => context
  | _ => scenario_context
  end.

(** Identifiers that never repeat: [n] strokes. *)
Fixpoint uuid_strokes (n : nat) : string :=
  match n with
  | O => EmptyString
  | S n' => String "i" (uuid_strokes n')
  end.

Definition failed_observation : Ctx.Observation :=
  {| Ctx.tool_name := PStr "file";
     Ctx.input_params := PDict [("path", PStr "/etc/passwd")];
     Ctx.output := PNone;
     Ctx.success := false;
     Ctx.error := Some "Path not allowed: /etc/passwd";
     Ctx.obs_timestamp := 2 |}.

Definition long_answer : Loop.AgentResult :=
  {| Loop.success := true;
     Loop.output := PStr "All files were summarised.";
     Loop.observations := [];
     Loop.error := None;
     Loop.iterations := 3 |}.

(** A loop whose model backend fails on every call. *)
Definition broken_agent : Loop.Agent unit :=
  {| Loop.llm := fun _ w => (Raise (Exn "ConnectionError" "model backend unreachable"), w);
     Loop.tools := {[ "file" := file_tool; "web" := flaky_tool ]};
     Loop.max_iterations := 20;
     Loop.callbacks := [];
     Loop.system_prompt := "You are OpenWork." |}.

(** A tool that requires the path check, counts its runs in the
    world and reports the count it found. *)
Definition counting_tool : Loop.Tool nat :=
  {| Loop.description := "Perform file system operations";
     Loop.requires_path_check := true;
     Loop.execute_name := "openwork.tools.file_tool.FileTool.execute";
     Loop.execute := fun _ n =>
       (Ok (Tools.MkToolResult true (PInt (Z.of_nat n)) None None), S n) |}.

Definition counting_agent : Loop.Agent nat :=
  {| Loop.llm := fun _ n => (Ok "Done", n);
     Loop.tools := {[ "file" := counting_tool ]};
     Loop.max_iterations := 20;
     Loop.callbacks := [];
     Loop.system_prompt := "You are OpenWork." |}.

(** A loop state in which the tool has run seven times. *)
Definition counting_start : Loop.LoopState nat :=
  {| Loop.world := 7%nat; Loop.state := Loop.EXECUTING; Loop.ticks := 0%nat;
     Loop.events := []; Loop.calls := [] |}.

(** A store that is full: ceiling 3, with a system message and two
    user messages. *)
Definition full_context : Ctx.Context :=
  Ctx.MkContext "" [] [system_msg "prompt" 0; user_msg "a" 1; user_msg "b" 2] [] [] 3.

Fixpoint repeat_text (n : nat) (s : string) : string :=
  match n with
  | O => EmptyString
  | S n' => s ++ repeat_text n' s
  end.

(** A successful result whose output has 510 characters. *)
Definition verbose_answer : Loop.AgentResult :=
  {| Loop.success := true;
     Loop.output := PStr (repeat_text 51 "0123456789");
     Loop.observations := [];
     Loop.error := None;
     Loop.iterations := 3 |}.

End MoreExamples.

(** * Properties *)

(** ** Sandbox policy *)

Module SandboxFacts.
Import Sandbox Examples.

Lemma in_parents_descendant (x p : Path) :
  in_parents x p = true <-> Spec.is_descendant p x.
Proof.
  unfold in_parents, parents, Spec.is_descendant.
  rewrite bool_decide_eq_true, list_elem_of_fmap.
  split.
  - intros (k & -> & Hk). cbn.
    apply elem_of_reverse, elem_of_seq in Hk.
    split; [reflexivity|].
    exists (drop k (parts p)). split.
    + intros Hnil. apply (f_equal List.length) in Hnil.
      rewrite length_drop in Hnil. cbn in Hnil. lia.
    + symmetry. apply take_drop.
  - intros (Habs & rest & Hrest & Hparts).
    exists (List.length (parts x)). split.
    + destruct x as [ax px]; cbn in *. f_equal; [congruence|].
      rewrite Hparts. symmetry. apply take_app_length.
    + apply elem_of_reverse, elem_of_seq.
      rewrite Hparts, length_app.
      destruct rest; [congruence|]. cbn. lia.
Qed.

Lemma existsb_elem_of {A : Type} (f : A -> bool) (l : list A) :
  existsb f l = true <-> exists x, x ∈ l /\ f x = true.
Proof.
  rewrite existsb_exists. split; intros (x & Hx & Hf); exists x; split; auto;
    by apply list_elem_of_In.
Qed.

Section PathAllowed.
Variable resolve : Path -> Path.

(** What [SandboxManager.is_path_allowed] decides: the specified
    condition, or the path being an ancestor of a root. *)
Lemma is_path_allowed_iff (config : SandboxConfig) (p : Path) :
  is_path_allowed resolve config p = true <->
  Spec.path_allowed resolve (allowed_paths config) p \/
  exists root, root ∈ allowed_paths config /\ Spec.is_descendant root (resolve p).
Proof.
  unfold is_path_allowed, Spec.path_allowed.
  destruct (allowed_paths config) as [|r0 rs] eqn:HR.
  - split; [discriminate|].
    intros [(r & Hr & _)|(r & Hr & _)]; by apply elem_of_nil in Hr.
  - rewrite existsb_elem_of. split.
    + intros (r & Hr & Hf).
      apply orb_true_iff in Hf as [Hf|Hf].
      * apply orb_true_iff in Hf as [Hf|Hf].
        -- apply bool_decide_eq_true in Hf. left. exists r. auto.
        -- apply in_parents_descendant in Hf. left. exists r. auto.
      * apply in_parents_descendant in Hf. right. exists r. auto.
    + intros [(r & Hr & [Heq|Hd])|(r & Hr & Hd)]; exists r; split; auto.
      * apply orb_true_iff. left. apply orb_true_iff. left.
        by apply bool_decide_eq_true.
      * apply orb_true_iff. left. apply orb_true_iff. right.
        by apply in_parents_descendant.
      * apply orb_true_iff. right. by apply in_parents_descendant.
Qed.

(** The specified condition is sufficient. *)
Lemma is_path_allowed_complete (config : SandboxConfig) (p : Path) :
  Spec.path_allowed resolve (allowed_paths config) p ->
  is_path_allowed resolve config p = true.
Proof. intros H. apply is_path_allowed_iff. by left. Qed.

(** With no root configured every path is refused. *)
Lemma is_path_allowed_no_roots (config : SandboxConfig) (p : Path) :
  allowed_paths config = [] -> is_path_allowed resolve config p = false.
Proof. intros H. unfold is_path_allowed. by rewrite H. Qed.

(** The sibling check of the history store, [Context.is_path_allowed],
    decides exactly the specified condition. *)
Lemma context_is_path_allowed_iff (ctx : Ctx.Context) (p : Path) :
  Ctx.is_path_allowed resolve ctx p = true <->
  Spec.path_allowed resolve (Ctx.allowed_paths ctx) p.
Proof.
  unfold Ctx.is_path_allowed, Spec.path_allowed.
  rewrite existsb_elem_of. split.
  - intros (r & Hr & Hf). exists r. split; [done|].
    apply orb_true_iff in Hf as [Hf|Hf].
    + left. by apply bool_decide_eq_true in Hf.
    + right. by apply in_parents_descendant.
  - intros (r & Hr & [Heq|Hd]); exists r; split; auto; apply orb_true_iff.
    + left. by apply bool_decide_eq_true.
    + right. by apply in_parents_descendant.
Qed.
End PathAllowed.

(** C1. With [/home/user/project] as the only allowed root,
    [SandboxManager.is_path_allowed] accepts [/home], which neither
    equals the root nor lies below it: the check also accepts every
    ancestor of a root, through its third disjunct
    [path in allowed.parents]. *)
Theorem is_path_allowed_accepts_ancestor :
  is_path_allowed resolve_plain project_only (path_of_string "/home") = true /\
  ~ Spec.path_allowed resolve_plain (allowed_paths project_only) (path_of_string "/home").
Proof.
  split; [reflexivity|].
  intros (r & Hr & H). cbn in Hr.
  apply list_elem_of_singleton in Hr. subst r.
  destruct H as [H|(_ & rest & _ & H)]; [discriminate|].
  cbn in H. discriminate.
Qed.




End SandboxFacts.

(** ** History store *)

Module HistoryFacts.
Import Ctx Examples.

Lemma py_len_app {A : Type} (l1 l2 : list A) :
  py_len (l1 ++ l2) = py_len l1 + py_len l2.
Proof. unfold py_len. rewrite length_app. lia. Qed.

Lemma py_len_nonneg {A : Type} (l : list A) : 0 <= py_len l.
Proof. unfold py_len. lia. Qed.

Lemma system_count_le (ms : list Message) : Spec.system_count ms <= py_len ms.
Proof.
  unfold Spec.system_count, py_len.
  pose proof (List.filter_length_le is_system ms). lia.
Qed.

Lemma system_count_nonneg (ms : list Message) : 0 <= Spec.system_count ms.
Proof. apply py_len_nonneg. Qed.

(** Below the ceiling nothing is evicted. *)
Lemma trim_within (C : Z) (ms : list Message) :
  py_len ms <= C -> trim C ms = ms.
Proof.
  intros H. unfold trim.
  destruct (Z.ltb_spec C (py_len ms)); [lia|reflexivity].
Qed.

(** Above the ceiling, with fewer system messages than the ceiling:
    the system messages, then the last [C - systemCount] messages. *)
Lemma trim_window (C : Z) (ms : list Message) :
  C < py_len ms -> Spec.system_count ms < C ->
  trim C ms =
  (List.filter is_system ms
   ++ drop (Z.to_nat (py_len ms - (C - Spec.system_count ms))) ms)%list.
Proof.
  intros Hlen Hsys. unfold trim, slice_from.
  destruct (Z.ltb_spec C (py_len ms)); [|lia].
  fold (Spec.system_count ms).
  destruct (Z.ltb_spec (- C + Spec.system_count ms) 0); [|lia].
  pose proof (system_count_le ms). pose proof (system_count_nonneg ms).
  rewrite Z.max_r by lia.
  do 3 f_equal. lia.
Qed.

(** With as many system messages as the ceiling or more, the slice
    index is not negative and counts from the front: the result is
    longer than the list it was computed from. *)
Lemma trim_saturated (C : Z) (ms : list Message) :
  C < py_len ms -> C <= Spec.system_count ms ->
  trim C ms =
  (List.filter is_system ms ++ drop (Z.to_nat (Spec.system_count ms - C)) ms)%list.
Proof.
  intros Hlen Hsys. unfold trim, slice_from.
  destruct (Z.ltb_spec C (py_len ms)); [|lia].
  fold (Spec.system_count ms).
  destruct (Z.ltb_spec (- C + Spec.system_count ms) 0); [lia|].
  f_equal.
  destruct (Z.le_gt_cases (- C + Spec.system_count ms) (py_len ms)) as [Hin|Hout].
  - rewrite Z.min_l by lia. do 2 f_equal. lia.
  - rewrite Z.min_r by lia.
    unfold py_len in *. rewrite !drop_ge; [done|lia|lia].
Qed.

Lemma trim_length_window (C : Z) (ms : list Message) :
  C < py_len ms -> Spec.system_count ms < C -> py_len (trim C ms) = C.
Proof.
  intros Hlen Hsys. rewrite trim_window by done.
  rewrite py_len_app. fold (Spec.system_count ms).
  pose proof (system_count_le ms). pose proof (system_count_nonneg ms).
  unfold py_len at 1. rewrite length_drop. unfold py_len in *. lia.
Qed.

Lemma trim_length_saturated (C : Z) (ms : list Message) :
  C < py_len ms -> C <= Spec.system_count ms -> 0 <= C ->
  py_len (trim C ms) = py_len ms + C.
Proof.
  intros Hlen Hsys HC. rewrite trim_saturated by done.
  rewrite py_len_app. fold (Spec.system_count ms).
  pose proof (system_count_le ms). pose proof (system_count_nonneg ms).
  unfold py_len at 1. rewrite length_drop. unfold py_len in *. lia.
Qed.

(** The count stays within the ceiling whenever the list holds fewer
    system messages than the ceiling. *)
Lemma trim_bounded (C : Z) (ms : list Message) :
  Spec.system_count ms < C -> py_len (trim C ms) <= C.
Proof.
  intros Hsys. destruct (Z.le_gt_cases (py_len ms) C) as [Hle|Hgt].
  - by rewrite trim_within.
  - rewrite trim_length_window by lia. lia.
Qed.

(** Eviction never drops a system message. *)
Lemma trim_keeps_system (C : Z) (ms : list Message) (m : Message) :
  m ∈ ms -> role m = SYSTEM -> m ∈ trim C ms.
Proof.
  intros Hin Hrole. unfold trim.
  destruct (Z.ltb C (py_len ms)); [|done].
  apply elem_of_app. left.
  apply list_elem_of_In, List.filter_In. split.
  - by apply list_elem_of_In.
  - unfold is_system. by apply bool_decide_eq_true.
Qed.

(** Where the count is brought down to the ceiling, a second
    eviction changes nothing. *)
Lemma trim_idempotent_window (C : Z) (ms : list Message) :
  Spec.system_count ms < C -> trim C (trim C ms) = trim C ms.
Proof. intros H. apply trim_within. by apply trim_bounded. Qed.

Lemma messages_add_message (ctx : Context) r text md now :
  messages (add_message ctx r text md now) =
  trim (max_history_length ctx) (messages ctx ++ [MkMessage r text now md]).
Proof. reflexivity. Qed.

Lemma max_history_length_add_messages (calls : list (MessageRole * string * list (string * pyval) * Z))
    (ctx : Context) :
  max_history_length (add_messages ctx calls) = max_history_length ctx.
Proof.
  revert ctx. induction calls as [|[[[r text] md] now] calls IH]; intros ctx; [done|].
  cbn. unfold add_messages in IH. by rewrite IH.
Qed.

Lemma add_messages_snoc (ctx : Context) pre (call : MessageRole * string * list (string * pyval) * Z) :
  messages (add_messages ctx (pre ++ [call])) =
  trim (max_history_length ctx) (messages (add_messages ctx pre) ++ [message_of call]).
Proof.
  unfold add_messages at 1. rewrite fold_left_app. cbn.
  fold (add_messages ctx pre).
  destruct call as [[[r text] md] now]. cbn.
  by rewrite max_history_length_add_messages.
Qed.

(** However many calls follow, a system message once stored stays. *)
Lemma add_messages_keeps_system calls : forall (ctx : Context) (m : Message),
  m ∈ messages ctx \/ m ∈ map message_of calls ->
  role m = SYSTEM ->
  m ∈ messages (add_messages ctx calls).
Proof.
  induction calls as [|call calls IH] using rev_ind; intros ctx m Hin Hrole.
  - destruct Hin as [Hin|Hin]; [done|]. by apply elem_of_nil in Hin.
  - rewrite add_messages_snoc. apply trim_keeps_system; [|done].
    apply elem_of_app.
    destruct Hin as [Hin|Hin].
    + left. apply IH; auto.
    + rewrite map_app in Hin. apply elem_of_app in Hin as [Hin|Hin].
      * left. apply IH; auto.
      * right. exact Hin.
Qed.

(** No store at all holds two distinct messages within a count of
    one: once more system messages have been added than the ceiling,
    the two halves of C4 cannot both hold. *)
Lemma two_messages_exceed_one (store : list Message) (m1 m2 : Message) :
  m1 <> m2 -> m1 ∈ store -> m2 ∈ store -> 1 < py_len store.
Proof.
  intros Hne H1 H2. unfold py_len.
  destruct store as [|a [|b rest]]; cbn.
  - by apply elem_of_nil in H1.
  - apply list_elem_of_singleton in H1, H2. congruence.
  - lia.
Qed.

(** C4, as stated, fails: with ceiling 1, after two system messages
    have been added the store holds three entries. (No store can hold
    both messages within a count of one: the code keeps the system
    messages and gives up the ceiling.) *)
Lemma add_message_exceeds_ceiling :
  ~ (py_len (messages (add_messages ceiling_one two_system_calls))
       <= max_history_length ceiling_one /\
     forall m, m ∈ map message_of two_system_calls -> role m = SYSTEM ->
               m ∈ messages (add_messages ceiling_one two_system_calls)).
Proof.
  intros [Hlen _]. vm_compute in Hlen. apply Hlen. reflexivity.
Qed.

(** C4, amended. For every ceiling and every sequence of [add_message]
    calls, after each call every system-role message stored or added
    so far is still present; and the stored count is at most the
    ceiling after every call at which the store, with the new message
    appended, holds fewer system-role messages than the ceiling. *)
Theorem add_message_history_invariant (ctx : Context)
    (pre : list (MessageRole * string * list (string * pyval) * Z))
    (call : MessageRole * string * list (string * pyval) * Z) :
  let C := max_history_length ctx in
  let before := add_messages ctx pre in
  let after := add_messages ctx (pre ++ [call]) in
  (forall m, m ∈ messages ctx \/ m ∈ map message_of (pre ++ [call]) ->
             role m = SYSTEM -> m ∈ messages after) /\
  (Spec.system_count (messages before ++ [message_of call]) < C ->
   py_len (messages after) <= C).
Proof.
  cbn zeta. split.
  - intros m Hin Hrole. by apply add_messages_keeps_system.
  - intros Hsys. rewrite add_messages_snoc. by apply trim_bounded.
Qed.

Lemma add_message_history_invariant_witness :
  py_len (messages (add_messages ceiling_three
                      (task_prompt_result ++ [(TOOL, "second result", [], 3)]))) <= 3.
Proof.
  apply (proj2 (add_message_history_invariant ceiling_three task_prompt_result
                  (TOOL, "second result", [], 3))).
  vm_compute. reflexivity.
Defined.

(** C5 fails on the code. With ceiling 2, evicting from the three
    distinct messages user, user, system yields the system message
    twice: the recent window is cut from the whole list and overlaps
    the system messages put in front of it. With ceiling 1, evicting
    from system, user yields a longer list, and evicting again a
    longer one still. *)
Theorem trim_duplicates_and_grows :
  let ms := [user_msg "a" 0; user_msg "b" 1; system_msg "s" 2] in
  let ms' := [system_msg "s" 0; user_msg "a" 1] in
  NoDup ms /\
  trim 2 ms = [system_msg "s" 2; system_msg "s" 2] /\
  ~ NoDup (trim 2 ms) /\
  trim 1 ms' = [system_msg "s" 0; system_msg "s" 0; user_msg "a" 1] /\
  trim 1 (trim 1 ms') <> trim 1 ms'.
Proof.
  cbn zeta. repeat split.
  - repeat (apply NoDup_cons; split);
      [ rewrite !elem_of_cons, elem_of_nil; intros [H|[H|[]]]; discriminate H
      | rewrite !elem_of_cons, elem_of_nil; intros [H|[]]; discriminate H
      | apply not_elem_of_nil
      | apply NoDup_nil; exact I ].
  - intros H. vm_compute in H. apply NoDup_cons in H as [H _].
    apply H. apply elem_of_cons. by left.
  - vm_compute. discriminate.
Qed.

End HistoryFacts.

(** ** Dispatcher and agent loop *)

Module LoopFacts.
Import Loop.

Section Dispatch.
Context {World : Type}.
Variable resolve : Path -> Path.
Variable json_loads : string -> option pyval.
Variable repr_str : string -> string.
Variable now : nat -> Z.

#[local] Abbreviation execute_tool := (_execute_tool resolve repr_str).
#[local] Abbreviation gate := (path_gate resolve).
#[local] Abbreviation act := (Loop.act resolve repr_str now).
#[local] Abbreviation iteration := (Loop.iteration resolve json_loads repr_str now).
#[local] Abbreviation while_loop := (Loop.while_loop resolve json_loads repr_str now).

Lemma find_tool_registered (self : Agent World) (key : string) (tool : Tool World) :
  tools self !! key = Some tool ->
  find_tool self (PStr key) = Ok (Some (key, tool)).
Proof. intros H. cbn. by rewrite H. Qed.

(** The call itself leaves a trace in [calls]. *)
Lemma invoke_calls (key : string) (tool : Tool World) (d : list (string * pyval))
    (st : LoopState World) :
  calls (snd (invoke key tool (PDict d) st)) = (calls st ++ [(key, d)])%list.
Proof.
  unfold invoke. destruct (execute tool d (world st)) as [[r|e] w]; reflexivity.
Qed.

(** The gate rejects exactly a truthy string under [path] or, failing
    that, [file_path], which the context does not allow. *)
Lemma gate_rejects (tool : Tool World) (d : list (string * pyval))
    (context : Ctx.Context) (p : string) :
  requires_path_check tool = true ->
  py_or (dict_get d "path" PNone) (dict_get d "file_path" PNone) = PStr p ->
  p <> "" ->
  Ctx.is_path_allowed resolve context (path_of_string p) = false ->
  gate tool (PDict d) context = Ok (Some (Tools.failure ("Path not allowed: " ++ p))).
Proof.
  intros Hreq Hpath Hp Hdeny. unfold path_gate.
  rewrite Hreq, Hpath. cbn.
  destruct (String.eqb_spec p ""); [contradiction|]. cbn.
  by rewrite Hdeny.
Qed.

(** Without a truthy [path] or [file_path] the gate lets the call
    through, whatever the context allows. *)
Lemma gate_open (tool : Tool World) (d : list (string * pyval)) (context : Ctx.Context) :
  truthy (dict_get d "path" PNone) = false ->
  truthy (dict_get d "file_path" PNone) = false ->
  gate tool (PDict d) context = Ok None.
Proof.
  intros Hpath Hfile. unfold path_gate, py_or.
  destruct (requires_path_check tool); [|reflexivity].
  rewrite Hpath, Hfile. reflexivity.
Qed.

Lemma truthy_dict_get (d : list (string * pyval)) (k : string) :
  truthy (dict_get d k PNone) = true ->
  exists v, assoc k d = Some v /\ truthy v = true.
Proof.
  unfold dict_get. destruct (assoc k d) as [v|]; [|discriminate].
  intros H. by exists v.
Qed.

Lemma app_singleton_neq {A : Type} (l : list A) (x : A) : (l ++ [x])%list <> l.
Proof.
  intros H. apply (f_equal List.length) in H.
  rewrite length_app in H. cbn in H. lia.
Qed.

(** A pass that dispatches a tool and gets a result back ends with
    [Continue], the observation stored. *)
Lemma act_dispatch (self : Agent World) (iterations : Z) (context : Ctx.Context)
    (decision : AgentDecision) (st st1 : LoopState World) (result : Tools.ToolResult) :
  truthy (is_complete decision) = false ->
  truthy (tool_name decision) = true ->
  execute_tool self (tool_name decision) (tool_params decision) context
               (executing self decision st) = (Ok result, st1) ->
  act self iterations context decision st
  = (Ok (Continue (Ctx.add_observation repr_str context
                     (observation_of decision result (now (ticks st1)))
                     (now (S (ticks st1))))),
     snd (clock now (snd (clock now st1)))).
Proof.
  intros Hinc Hname Hexec. unfold Loop.act.
  rewrite Hinc, Hname, Hexec. reflexivity.
Qed.

Lemma observations_add_observation (context : Ctx.Context) (o : Ctx.Observation) (t : Z) :
  Ctx.observations (Ctx.add_observation repr_str context o t)
  = (Ctx.observations context ++ [o])%list.
Proof. reflexivity. Qed.

(** A pass that ends with [Continue] is followed by the next pass, as
    long as the budget lasts. *)
Lemma while_loop_continue (self : Agent World) (remaining : nat) (iterations : Z)
    (context context' : Ctx.Context) (st st' : LoopState World) :
  iteration self (iterations + 1) context st = (Ok (Continue context'), st') ->
  while_loop self (S remaining) iterations context st
  = while_loop self remaining (iterations + 1) context' st'.
Proof. intros H. cbn. by rewrite H. Qed.

(** C2. For a tool that requires the path check, when the parameter
    taken from [path] or [file_path] is rejected by the context, the
    dispatcher returns the failure result and leaves the world and
    the record of tool calls untouched: the tool is not invoked. A
    pass of the loop whose decision asks for that call stores a failed
    observation and reaches the bottom of the loop body, and the
    [while] loop goes on with its next pass. *)
Theorem rejected_path_is_not_executed (self : Agent World) (key : string)
    (tool : Tool World) (d : list (string * pyval)) (p : string)
    (context : Ctx.Context) :
  tools self !! key = Some tool ->
  requires_path_check tool = true ->
  py_or (dict_get d "path" PNone) (dict_get d "file_path" PNone) = PStr p ->
  p <> "" ->
  Ctx.is_path_allowed resolve context (path_of_string p) = false ->
  (forall st,
      execute_tool self (PStr key) (PDict d) context st
      = (Ok (Tools.failure ("Path not allowed: " ++ p)), st)) /\
  (forall remaining iterations decision st st_d,
      _get_decision json_loads self context (thinking self (iterations + 1) st)
      = (Ok decision, st_d) ->
      truthy (is_complete decision) = false ->
      tool_name decision = PStr key -> key <> "" ->
      tool_params decision = PDict d ->
      exists context' st' observation,
        iteration self (iterations + 1) context st = (Ok (Continue context'), st') /\
        while_loop self (S remaining) iterations context st
        = while_loop self remaining (iterations + 1) context' st' /\
        Ctx.observations context' = (Ctx.observations context ++ [observation])%list /\
        Ctx.success observation = false /\
        Ctx.output observation = PNone /\
        Ctx.error observation = Some ("Path not allowed: " ++ p) /\
        calls st' = calls st_d /\
        world st' = world (executing self decision st_d)).
Proof.
  intros Htool Hreq Hpath Hp Hdeny.
  assert (Hexec : forall st,
             execute_tool self (PStr key) (PDict d) context st
             = (Ok (Tools.failure ("Path not allowed: " ++ p)), st)).
  { intros st. unfold _execute_tool.
    rewrite (find_tool_registered _ _ _ Htool).
    by rewrite (gate_rejects _ _ _ _ Hreq Hpath Hp Hdeny). }
  split; [exact Hexec|].
  intros remaining iterations decision st st_d Hdecision Hinc Hname Hkey Hparams.
  assert (Htruthy : truthy (tool_name decision) = true).
  { rewrite Hname. cbn. by destruct (String.eqb_spec key ""). }
  assert (Hiter : iteration self (iterations + 1) context st
                  = (Ok (Continue (Ctx.add_observation repr_str context
                                     (observation_of decision
                                        (Tools.failure ("Path not allowed: " ++ p))
                                        (now (ticks (executing self decision st_d))))
                                     (now (S (ticks (executing self decision st_d)))))),
                     snd (clock now (snd (clock now (executing self decision st_d)))))).
  { unfold Loop.iteration. rewrite Hdecision.
    apply act_dispatch; [done|done|]. rewrite Hname, Hparams. apply Hexec. }
  eexists _, _, _. split; [exact Hiter|].
  split; [by apply while_loop_continue|].
  rewrite observations_add_observation. repeat split.
Qed.

(** Outside C2: a truthy value under [path] that is not a string
    never reaches the path check. [Path(path)] raises, nothing in
    [_execute_tool] catches it, and it is the handler of [run] that
    ends the loop. *)
Lemma non_string_path_raises (self : Agent World) (key : string) (tool : Tool World)
    (d : list (string * pyval)) (v : pyval) (context : Ctx.Context) (st : LoopState World) :
  tools self !! key = Some tool ->
  requires_path_check tool = true ->
  py_or (dict_get d "path" PNone) (dict_get d "file_path" PNone) = v ->
  truthy v = true ->
  (forall s, v <> PStr s) ->
  execute_tool self (PStr key) (PDict d) context st
  = (Raise (Exn "TypeError"
                ("expected str, bytes or os.PathLike object, not " ++ type_name v)), st).
Proof.
  intros Htool Hreq Hpath Htruthy Hshape. unfold _execute_tool, path_gate.
  rewrite (find_tool_registered _ _ _ Htool), Hreq, Hpath, Htruthy.
  destruct v as [| | | |s| |]; try reflexivity. by destruct (Hshape s).
Qed.

(** C3. For a tool that requires the path check, when the parameter
    mapping has no truthy value under [path] nor under [file_path],
    the dispatcher performs no check and runs the tool, whatever paths
    the context allows: [tool.execute] is applied to the mapping in
    the world as it is, the world it leaves is the world after the
    dispatch, and its result (its exception, as a failure result) is
    the dispatcher's answer. Conversely, the gate stops a dispatch,
    by a rejection or by raising, only when one of the two keys is
    present with a truthy value; so does every dispatch that returns
    without the tool having been called. *)
Theorem missing_path_parameter_skips_gate (self : Agent World) (key : string)
    (tool : Tool World) (d : list (string * pyval)) :
  tools self !! key = Some tool ->
  requires_path_check tool = true ->
  (truthy (dict_get d "path" PNone) = false ->
   truthy (dict_get d "file_path" PNone) = false ->
   forall context st,
   exists result st',
     execute_tool self (PStr key) (PDict d) context st = (Ok result, st') /\
     world st' = snd (execute tool d (world st)) /\
     match fst (execute tool d (world st)) with
     | Ok r => result = r
     | Raise e => result = Tools.failure (exn_msg e)
     end /\
     calls st' = (calls st ++ [(key, d)])%list /\
     state st' = state st /\ events st' = events st /\ ticks st' = ticks st) /\
  (forall context,
     gate tool (PDict d) context <> Ok None ->
     exists k v, (k = "path" \/ k = "file_path") /\ assoc k d = Some v /\ truthy v = true) /\
  (forall context st,
     calls (snd (execute_tool self (PStr key) (PDict d) context st)) = calls st ->
     exists k v, (k = "path" \/ k = "file_path") /\ assoc k d = Some v /\ truthy v = true).
Proof.
  intros Htool Hreq.
  assert (Hpresent : forall context,
             gate tool (PDict d) context <> Ok None ->
             exists k v, (k = "path" \/ k = "file_path")
                         /\ assoc k d = Some v /\ truthy v = true).
  { intros context Hgate.
    destruct (truthy (dict_get d "path" PNone)) eqn:Hpath.
    { apply truthy_dict_get in Hpath as (v & Hv & Ht). exists "path", v. auto. }
    destruct (truthy (dict_get d "file_path" PNone)) eqn:Hfile.
    { apply truthy_dict_get in Hfile as (v & Hv & Ht). exists "file_path", v. auto. }
    destruct Hgate. by apply gate_open. }
  split_and!.
  - intros Hpath Hfile context st. unfold _execute_tool.
    rewrite (find_tool_registered _ _ _ Htool), (gate_open _ _ _ Hpath Hfile).
    unfold invoke.
    destruct (execute tool d (world st)) as [[r|e] w]; cbn;
      eexists _, _; (split; [reflexivity|]); cbn; split_and!; reflexivity.
  - exact Hpresent.
  - intros context st Hcalls. apply (Hpresent context). intros Hopen.
    unfold _execute_tool in Hcalls.
    rewrite (find_tool_registered _ _ _ Htool), Hopen in Hcalls.
    pose proof (invoke_calls key tool d st) as Hinv.
    destruct (invoke key tool (PDict d) st) as [r st'].
    cbn [snd] in *. rewrite Hinv in Hcalls.
    by apply app_singleton_neq in Hcalls.
Qed.
End Dispatch.

Section Run.
Context {World : Type}.
Variable resolve : Path -> Path.
Variable json_loads : string -> option pyval.
Variable repr_str : string -> string.
Variable now : nat -> Z.

#[local] Abbreviation get_decision := (_get_decision (World:=World) json_loads).
#[local] Abbreviation act := (Loop.act (World:=World) resolve repr_str now).
#[local] Abbreviation iteration := (Loop.iteration (World:=World) resolve json_loads repr_str now).
#[local] Abbreviation while_loop := (Loop.while_loop (World:=World) resolve json_loads repr_str now).
#[local] Abbreviation run := (Loop.run (World:=World) resolve json_loads repr_str now).

#[local] Abbreviation always_idle := (Spec.always_idle (World:=World) json_loads).

(** The argument [remaining] of [while_loop] against the test of the
    [while]: with [remaining = max_iterations - iterations] cut off at
    zero, no pass is left exactly when [iterations < max_iterations]
    fails, and a pass uses up one. *)
Lemma remaining_passes (self : Agent World) (iterations : Z) :
  (Z.to_nat (max_iterations self - iterations) = O <-> ~ iterations < max_iterations self) /\
  (forall remaining,
      Z.to_nat (max_iterations self - iterations) = S remaining ->
      Z.to_nat (max_iterations self - (iterations + 1)) = remaining).
Proof. split; [|intros remaining]; lia. Qed.

Lemma run_unfold (self : Agent World) task allowed st :
  run self task allowed st
  = while_loop self (Z.to_nat (max_iterations self)) 0
      (fst (initial_context resolve now self task allowed st))
      (snd (initial_context resolve now self task allowed st)).
Proof.
  unfold Loop.run. by destruct (initial_context resolve now self task allowed st).
Qed.

Lemma initial_context_observations (self : Agent World) task allowed st :
  Ctx.observations (fst (initial_context resolve now self task allowed st)) = [].
Proof.
  unfold initial_context, Ctx.new_context. cbn.
  destruct (String.eqb task ""); reflexivity.
Qed.

Lemma initial_context_state (self : Agent World) task allowed st :
  let st' := snd (initial_context resolve now self task allowed st) in
  events st' = events st /\ calls st' = calls st /\ world st' = world st.
Proof.
  unfold initial_context. cbn. destruct (String.eqb task ""); cbn; auto.
Qed.

(** One pass of a loop whose model is idle: the model is asked, and
    the pass ends at the bottom of the body with nothing changed but
    the world and the event stream. *)
Lemma idle_iteration (self : Agent World) (iterations : Z) (context : Ctx.Context)
    (st : LoopState World) :
  always_idle self ->
  exists st',
    iteration self iterations context st = (Ok (Continue context), st') /\
    events st' = (events st ++ [("thinking", PDict [("iteration", PInt iterations)])])%list /\
    calls st' = calls st.
Proof.
  intros Hidle. unfold Loop.iteration, _get_decision.
  destruct (Hidle (Ctx.get_messages_for_llm context) (world (thinking self iterations st)))
    as (response & d & w' & Hllm & Hloads & Hcomplete & Htool).
  rewrite Hllm, Hloads. unfold Loop.act. cbn [is_complete tool_name].
  rewrite Hcomplete, Htool.
  eexists. split; [reflexivity|]. split; reflexivity.
Qed.

Lemma idle_while_loop (self : Agent World) :
  always_idle self ->
  forall (remaining : nat) (iterations : Z) (context : Ctx.Context) (st : LoopState World),
  exists st',
    while_loop self remaining iterations context st
    = ({| success := false;
          output := PStr "";
          observations := Ctx.observations context;
          error := Some ("Max iterations (" ++ str_of_int (max_iterations self) ++ ") reached");
          iterations := iterations + Z.of_nat remaining |}, st') /\
    events st' = (events st ++ Spec.thinking_events iterations remaining)%list /\
    calls st' = calls st /\
    state st' = ERROR.
Proof.
  intros Hidle. induction remaining as [|remaining IH]; intros iterations context st.
  - eexists. cbn. unfold max_iterations_reached. rewrite Z.add_0_r.
    split; [reflexivity|]. cbn. rewrite app_nil_r. auto.
  - destruct (idle_iteration self (iterations + 1) context st Hidle)
      as (st1 & Hiter & Hevents & Hcalls).
    destruct (IH (iterations + 1) context st1) as (st' & Hloop & Hevents' & Hcalls' & Hstate).
    exists st'. cbn [Loop.while_loop]. rewrite Hiter, Hloop.
    split; [do 2 f_equal; lia|].
    split; [|split; [congruence|done]].
    rewrite Hevents', Hevents. cbn [Spec.thinking_events].
    by rewrite <- app_assoc.
Qed.

(** C7. For every iteration budget [N >= 0], the run of a loop whose
    model always yields an incomplete decision naming no tool returns,
    after exactly [N] passes (the [N] "thinking" events numbered 1 to
    [N], and no other event), the result with [success = false],
    [iterations = N] and the error "Max iterations (N) reached"; it
    comes from the [return] after the [while] loop, not from the
    exception handler, and no tool is called. *)
Theorem idle_model_exhausts_budget (self : Agent World) (task : string)
    (allowed : option (list string)) (st : LoopState World) :
  0 <= max_iterations self ->
  always_idle self ->
  exists st',
    run self task allowed st
    = ({| success := false;
          output := PStr "";
          observations := [];
          error := Some ("Max iterations (" ++ str_of_int (max_iterations self) ++ ") reached");
          iterations := max_iterations self |}, st') /\
    events st' = (events st ++ Spec.thinking_events 0 (Z.to_nat (max_iterations self)))%list /\
    calls st' = calls st /\
    state st' = ERROR.
Proof.
  intros HN Hidle. rewrite run_unfold.
  destruct (idle_while_loop self Hidle (Z.to_nat (max_iterations self)) 0
              (fst (initial_context resolve now self task allowed st))
              (snd (initial_context resolve now self task allowed st)))
    as (st' & Hloop & Hevents & Hcalls & Hstate).
  destruct (initial_context_state self task allowed st) as (He & Hc & _).
  exists st'. rewrite Hloop, initial_context_observations.
  split; [do 2 f_equal; lia|].
  split; [congruence|]. split; [congruence|done].
Qed.

(** The fallback of [_get_decision]: a reply that [json.loads] rejects
    becomes a complete decision whose final answer is the reply. *)
Lemma undecodable_reply_is_final_answer (self : Agent World) (context : Ctx.Context)
    (st : LoopState World) (response : string) (w' : World) :
  llm self (Ctx.get_messages_for_llm context) (world st) = (Ok response, w') ->
  json_loads response = None ->
  get_decision self context st = (Ok (fallback_decision response), set_world st w') /\
  is_complete (fallback_decision response) = PBool true /\
  final_answer (fallback_decision response) = PStr response.
Proof.
  intros Hllm Hloads. unfold _get_decision. rewrite Hllm, Hloads. auto.
Qed.

(** A pass whose decision is complete returns the success result. *)
Lemma act_complete (self : Agent World) (iterations : Z) (context : Ctx.Context)
    (decision : AgentDecision) (st : LoopState World) :
  truthy (is_complete decision) = true ->
  act self iterations context decision st
  = (Ok (Return {| success := true;
                   output := py_or (final_answer decision) (PStr "Task completed.");
                   observations := Ctx.observations context;
                   error := None;
                   iterations := iterations |}),
     _notify_callbacks self "complete" (PDict [("answer", final_answer decision)])
                       (set_state st COMPLETE)).
Proof. intros H. unfold Loop.act. by rewrite H. Qed.

(** A pass returns a result only for a complete decision. *)
Lemma act_return (self : Agent World) (iterations : Z) (context : Ctx.Context)
    (decision : AgentDecision) (st st' : LoopState World) (result : AgentResult) :
  act self iterations context decision st = (Ok (Return result), st') ->
  truthy (is_complete decision) = true.
Proof.
  unfold Loop.act. destruct (truthy (is_complete decision)); [done|].
  destruct (truthy (tool_name decision)); [|discriminate].
  destruct (_execute_tool _ _ _ _ _ _ _) as [[r|e] st1]; discriminate.
Qed.

(** A run that reports success got there through a complete
    decision, in the pass whose counter the result carries. *)
Lemma while_loop_success (self : Agent World) :
  forall (remaining : nat) (iterations : Z) (context : Ctx.Context)
         (st st' : LoopState World) (result : AgentResult),
  while_loop self remaining iterations context st = (result, st') ->
  success result = true ->
  exists k context_k st_k decision st_d,
    get_decision self context_k (thinking self k st_k) = (Ok decision, st_d) /\
    truthy (is_complete decision) = true /\
    act self k context_k decision st_d = (Ok (Return result), st') /\
    Loop.iterations result = k.
Proof.
  induction remaining as [|remaining IH]; intros iterations context st st' result Hloop Hok.
  - cbn in Hloop. injection Hloop as <- <-. discriminate.
  - cbn [Loop.while_loop] in Hloop. unfold Loop.iteration in Hloop.
    destruct (get_decision self context (thinking self (iterations + 1) st))
      as [[decision|e] st_d] eqn:Hdecision.
    + destruct (act self (iterations + 1) context decision st_d)
        as [[[r|context']|e] st2] eqn:Hact.
      * injection Hloop as -> ->.
        pose proof (act_return _ _ _ _ _ _ _ Hact) as Hcomplete.
        exists (iterations + 1), context, st, decision, st_d.
        repeat split; try done.
        rewrite act_complete in Hact by done. by injection Hact as <- _.
      * by apply IH in Hloop.
      * unfold on_exception in Hloop. injection Hloop as <- <-. discriminate.
    + unfold on_exception in Hloop. injection Hloop as <- <-. discriminate.
Qed.

(** C8, amended. Whenever the decision of a pass has a truthy
    completion flag, the loop returns in that very pass the result
    with [success = true], the observation list of the context
    (whatever failures it holds), the pass's counter, and as output
    the decision's final answer, or "Task completed." when the answer
    is absent or otherwise falsy, the empty string included. And a run
    returns [success = true] in no other way. *)
Theorem completion_is_the_success_exit (self : Agent World) :
  (forall (remaining : nat) (iterations : Z) (context : Ctx.Context)
          (st st_d : LoopState World) (decision : AgentDecision),
      get_decision self context (thinking self (iterations + 1) st) = (Ok decision, st_d) ->
      truthy (is_complete decision) = true ->
      exists st',
        while_loop self (S remaining) iterations context st
        = ({| success := true;
              output := py_or (final_answer decision) (PStr "Task completed.");
              observations := Ctx.observations context;
              error := None;
              iterations := iterations + 1 |}, st') /\
        state st' = COMPLETE) /\
  (forall task allowed (st st' : LoopState World) (result : AgentResult),
      run self task allowed st = (result, st') ->
      success result = true ->
      exists k context_k st_k decision st_d,
        get_decision self context_k (thinking self k st_k) = (Ok decision, st_d) /\
        truthy (is_complete decision) = true /\
        act self k context_k decision st_d = (Ok (Return result), st') /\
        Loop.iterations result = k).
Proof.
  split.
  - intros remaining iterations context st st_d decision Hdecision Hcomplete.
    eexists. cbn [Loop.while_loop]. unfold Loop.iteration.
    rewrite Hdecision, act_complete by done. split; reflexivity.
  - intros task allowed st st' result Hrun Hok.
    rewrite run_unfold in Hrun. by eapply while_loop_success.
Qed.

(** The first pass of a run whose model replies [response]. *)
Lemma first_decision (self : Agent World) (response : string) (context : Ctx.Context)
    (st : LoopState World) :
  Spec.always_replies self response ->
  exists w',
    get_decision self context st
    = (match json_loads response with
       | None => Ok (fallback_decision response)
       | Some (PDict data) =>
           Ok {| thought := dict_get data "thought" (PStr "");
                 tool_name := dict_get data "tool" PNone;
                 tool_params := dict_get data "params" (PDict []);
                 is_complete := dict_get data "is_complete" (PBool false);
                 final_answer := dict_get data "answer" PNone;
                 needs_verification := false |}
       | Some v =>
           Raise (Exn "AttributeError"
                      ("'" ++ type_name v ++ "' object has no attribute 'get'"))
       end, set_world st w').
Proof.
  intros Hreply. unfold _get_decision.
  destruct (Hreply (Ctx.get_messages_for_llm context) (world st)) as (w' & ->).
  exists w'. destruct (json_loads response) as [[]|]; reflexivity.
Qed.

(** The part of C6 that holds: a reply that is not JSON ends the run
    with success, the reply as output (the default text for the
    empty reply). *)
Lemma undecodable_reply_ends_run (self : Agent World) (response : string)
    (task : string) (allowed : option (list string)) (st : LoopState World) :
  0 < max_iterations self ->
  Spec.always_replies self response ->
  json_loads response = None ->
  exists st',
    run self task allowed st
    = ({| success := true;
          output := py_or (PStr response) (PStr "Task completed.");
          observations := [];
          error := None;
          iterations := 1 |}, st') /\
    state st' = COMPLETE.
Proof.
  intros HN Hreply Hloads. rewrite run_unfold.
  destruct (Z.to_nat (max_iterations self)) as [|remaining] eqn:Hfuel; [lia|].
  cbn [Loop.while_loop]. unfold Loop.iteration.
  edestruct first_decision as (w' & ->); [exact Hreply|].
  rewrite Hloads, act_complete by reflexivity.
  eexists. rewrite initial_context_observations. split; reflexivity.
Qed.

(** C6 fails on the code. A reply that is JSON but not a JSON object
    ([42], [null], a quoted string, a list) is not a structured
    decision, yet [_get_decision] does not fall back: [data.get]
    raises [AttributeError], which only the handler of [run] catches,
    and the run ends in the error state with [success = false]. *)
Theorem non_object_reply_aborts_run (self : Agent World) (response : string) (v : pyval)
    (task : string) (allowed : option (list string)) (st : LoopState World) :
  0 < max_iterations self ->
  Spec.always_replies self response ->
  json_loads response = Some v ->
  (forall d, v <> PDict d) ->
  exists st',
    run self task allowed st
    = ({| success := false;
          output := PStr "";
          observations := [];
          error := Some ("'" ++ type_name v ++ "' object has no attribute 'get'");
          iterations := 1 |}, st') /\
    state st' = ERROR.
Proof.
  intros HN Hreply Hloads Hshape. rewrite run_unfold.
  destruct (Z.to_nat (max_iterations self)) as [|remaining] eqn:Hfuel; [lia|].
  cbn [Loop.while_loop]. unfold Loop.iteration.
  edestruct first_decision as (w' & ->); [exact Hreply|].
  rewrite Hloads.
  destruct v as [| | | | | |d];
    try (unfold on_exception; eexists; rewrite initial_context_observations;
         split; reflexivity).
  by destruct (Hshape d).
Qed.
End Run.

Import Examples.

Lemma rejected_path_is_not_executed_witness :
  _execute_tool resolve_plain repr_sample (constant_agent "{}" 5)
    (PStr "file") (PDict [("path", PStr "/etc/passwd")]) project_context idle_state
  = (Ok (Tools.failure "Path not allowed: /etc/passwd"), idle_state).
Proof.
  apply (proj1 (rejected_path_is_not_executed resolve_plain json_loads_sample repr_sample
                  clock_sample (constant_agent "{}" 5) "file" file_tool
                  [("path", PStr "/etc/passwd")] "/etc/passwd" project_context
                  ltac:(vm_compute; reflexivity) ltac:(reflexivity) ltac:(reflexivity)
                  ltac:(discriminate) ltac:(vm_compute; reflexivity))).
Defined.

Lemma missing_path_parameter_skips_gate_witness :
  exists st',
    _execute_tool resolve_plain repr_sample MoreExamples.counting_agent
      (PStr "file") (PDict [("content", PStr "hello")]) project_context
      MoreExamples.counting_start
    = (Ok (Tools.MkToolResult true (PInt 7) None None), st') /\
    world st' = 8%nat /\
    calls st' = [("file", [("content", PStr "hello")])].
Proof.
  destruct (proj1 (missing_path_parameter_skips_gate resolve_plain repr_sample
                     MoreExamples.counting_agent "file" MoreExamples.counting_tool
                     [("content", PStr "hello")]
                     ltac:(vm_compute; reflexivity) ltac:(reflexivity))
                  ltac:(reflexivity) ltac:(reflexivity) project_context
                  MoreExamples.counting_start)
    as (result & st' & Hexec & Hworld & Hresult & Hcalls & _).
  cbn in Hresult. subst result. by exists st'.
Defined.

(** The scenario of the specification: the first decision asks to
    write outside the allowed directory, the dispatcher refuses
    without calling the tool, the observation records the failure, and
    the second pass completes the task. *)
Example sandbox_violation_scenario :
  run resolve_plain json_loads_scenario repr_sample clock_sample
      scenario_agent "create summary.txt" (Some ["/home/user/project"]) scenario_start
  = ({| success := true;
        output := PStr "Done";
        observations :=
          [{| Ctx.tool_name := PStr "file";
              Ctx.input_params := PDict [("path", PStr "/etc/passwd")];
              Ctx.output := PNone;
              Ctx.success := false;
              Ctx.error := Some "Path not allowed: /etc/passwd";
              Ctx.obs_timestamp := 2 |}];
        error := None;
        iterations := 2 |},
     {| world := 2%nat; state := COMPLETE; ticks := 4%nat;
        events := [("thinking", PDict [("iteration", PInt 1)]);
                   ("executing", PDict [("tool", PStr "file");
                                        ("params", PDict [("path", PStr "/etc/passwd")])]);
                   ("thinking", PDict [("iteration", PInt 2)]);
                   ("complete", PDict [("answer", PStr "Done")])];
        calls := [] |}).
Proof. vm_compute. reflexivity. Qed.

Lemma constant_agent_replies (reply : string) (budget : Z) :
  Spec.always_replies (constant_agent reply budget) reply.
Proof. intros msgs w. by exists w. Qed.

Lemma empty_object_is_idle (budget : Z) :
  Spec.always_idle json_loads_sample (constant_agent "{}" budget).
Proof. intros msgs w. exists "{}", [], w. repeat split. Qed.

Lemma idle_model_exhausts_budget_witness :
  exists st',
    run resolve_plain json_loads_sample repr_sample clock_sample
        (constant_agent "{}" 3) "task" (Some ["/home/user/project"]) idle_state
    = ({| success := false;
          output := PStr "";
          observations := [];
          error := Some "Max iterations (3) reached";
          iterations := 3 |}, st') /\
    events st' = [("thinking", PDict [("iteration", PInt 1)]);
                  ("thinking", PDict [("iteration", PInt 2)]);
                  ("thinking", PDict [("iteration", PInt 3)])] /\
    calls st' = [] /\
    state st' = ERROR.
Proof.
  apply (idle_model_exhausts_budget resolve_plain json_loads_sample repr_sample clock_sample
           (constant_agent "{}" 3) "task" (Some ["/home/user/project"]) idle_state
           ltac:(vm_compute; discriminate) (empty_object_is_idle 3)).
Defined.

Lemma non_object_reply_aborts_run_witness :
  exists st',
    run resolve_plain json_loads_sample repr_sample clock_sample
        (constant_agent "42" 20) "What is six times seven?" None idle_state
    = ({| success := false;
          output := PStr "";
          observations := [];
          error := Some "'int' object has no attribute 'get'";
          iterations := 1 |}, st') /\
    state st' = ERROR.
Proof.
  apply (non_object_reply_aborts_run resolve_plain json_loads_sample repr_sample clock_sample
           (constant_agent "42" 20) "42" (PInt 42) "What is six times seven?" None idle_state
           ltac:(reflexivity) (constant_agent_replies "42" 20) ltac:(reflexivity)
           ltac:(discriminate)).
Defined.

(** C8, as stated, fails: a complete decision whose final answer is
    present but empty (the decision the loop builds from an empty
    model reply) is answered with "Task completed.", not with its
    final answer. *)
Lemma empty_answer_is_replaced :
  let decision := fallback_decision "" in
  truthy (is_complete decision) = true /\
  final_answer decision = PStr "" /\
  ~ exists st',
      act resolve_plain repr_sample clock_sample (constant_agent "" 20) 1
          project_context decision idle_state
      = (Ok (Return {| success := true;
                       output := Spec.answer_or_default decision;
                       observations := Ctx.observations project_context;
                       error := None;
                       iterations := 1 |}), st').
Proof.
  cbn zeta. split; [reflexivity|]. split; [reflexivity|].
  intros (st' & H). vm_compute in H. discriminate H.
Qed.

Lemma completion_is_the_success_exit_witness :
  exists st',
    while_loop resolve_plain json_loads_sample repr_sample clock_sample
      (constant_agent "All done." 20) 20%nat 0 project_context idle_state
    = ({| success := true;
          output := PStr "All done.";
          observations := [];
          error := None;
          iterations := 1 |}, st') /\
    state st' = COMPLETE.
Proof.
  apply (proj1 (completion_is_the_success_exit resolve_plain json_loads_sample repr_sample
                  clock_sample (constant_agent "All done." 20))
               19%nat 0 project_context idle_state _ (fallback_decision "All done.")
               ltac:(reflexivity) ltac:(reflexivity)).
Defined.

End LoopFacts.

(** ** Subagent tool *)

Module SubagentFacts.
Import Subagent.

Section Execute.
Context {World : Type}.
Variable uuid4 : nat -> string.
Variable now : nat -> Z.
Variable execute_parallel :
  list SubagentTask -> Manager World -> outcome (list SubagentResult) * Manager World.

#[local] Abbreviation execute := (Subagent.execute uuid4 now execute_parallel).

(** Creating a task registers it. *)
Lemma create_task_registers (self : Manager World) descr allowed parent :
  let (task, self') := create_task uuid4 now self descr allowed parent in
  tasks self' !! id task = Some task /\ launched self' = launched self.
Proof. cbn. split; [apply lookup_insert_eq|reflexivity]. Qed.

(** C10. A call of the subagent tool whose [subtasks] list is empty
    (or missing) or holds more than 10 entries returns a failure
    result with the error "No subtasks provided", respectively
    "Maximum 10 subtasks allowed", and leaves the manager as it was:
    no task record is created and no fan-out is started for any entry. *)
Theorem rejected_batch_creates_nothing (allowed : list string)
    (kwargs : list (string * pyval)) (self : Manager World) (subtasks : list pyval) :
  dict_get kwargs "subtasks" (PList []) = PList subtasks ->
  subtasks = [] \/ 10 < Ctx.py_len subtasks ->
  exists msg,
    execute allowed kwargs self = (Ok (Tools.failure msg), self) /\
    (subtasks = [] -> msg = "No subtasks provided") /\
    (10 < Ctx.py_len subtasks -> msg = "Maximum 10 subtasks allowed") /\
    tasks (snd (execute allowed kwargs self)) = tasks self /\
    launched (snd (execute allowed kwargs self)) = launched self.
Proof.
  intros Hget Hbad. unfold Subagent.execute. rewrite Hget.
  destruct subtasks as [|entry rest].
  - exists "No subtasks provided". cbn. repeat split; done.
  - destruct Hbad as [Hnil|Hlen]; [discriminate|].
    exists "Maximum 10 subtasks allowed". cbn [truthy negb len_of].
    destruct (Z.ltb_spec 10 (Ctx.py_len (entry :: rest))); [|lia].
    repeat split; done.
Qed.

(** A batch within the cap does reach the fan-out: its entries are
    registered one by one and handed to [execute_parallel]. *)
Lemma accepted_batch_is_spawned (allowed : list string) (self : Manager World)
    (text : string) :
  spawn_and_wait uuid4 now execute_parallel self
    (PList [PDict [("description", PStr text)]]) allowed
  = execute_parallel
      [fst (create_task uuid4 now self (PStr text) allowed (PDict []))]
      {| tasks := tasks (snd (create_task uuid4 now self (PStr text) allowed (PDict [])));
         drawn := S (drawn self);
         ticks := S (ticks self);
         launched := (launched self ++ [[uuid4 (drawn self)]])%list;
         world := world self |}.
Proof. reflexivity. Qed.
End Execute.

Import Examples.

Lemma rejected_batch_creates_nothing_witness :
  exists msg,
    Subagent.execute uuid_sample clock_sample all_succeed ["/home/user/project"]
      [("subtasks", PList eleven_subtasks)] empty_manager
    = (Ok (Tools.failure msg), empty_manager) /\
    msg = "Maximum 10 subtasks allowed".
Proof.
  destruct (rejected_batch_creates_nothing uuid_sample clock_sample all_succeed
              ["/home/user/project"] [("subtasks", PList eleven_subtasks)]
              empty_manager eleven_subtasks
              ltac:(reflexivity) ltac:(right; vm_compute; reflexivity))
    as (msg & Hexec & _ & Hmsg & _).
  exists msg. split; [exact Hexec|]. apply Hmsg. vm_compute. reflexivity.
Defined.

End SubagentFacts.

(** ** Sandbox: the allowed list and validation *)

Module SandboxOpsFacts.
Import Sandbox SandboxOps.

Lemma set_allowed_paths_same (config : SandboxConfig) :
  set_allowed_paths config (allowed_paths config) = config.
Proof. by destruct config. Qed.

Lemma list_remove_snoc (x : Path) (l : list Path) :
  x ∉ l -> list_remove x (l ++ [x]) = l.
Proof.
  induction l as [|y l IH]; intros Hx; cbn.
  - by rewrite bool_decide_eq_true_2.
  - apply not_elem_of_cons in Hx as [Hne Hx].
    rewrite bool_decide_eq_false_2 by done. by rewrite IH.
Qed.

Lemma elem_of_list_remove (x q : Path) (l : list Path) :
  q <> x -> q ∈ list_remove x l <-> q ∈ l.
Proof.
  intros Hne. induction l as [|y l IH]; cbn; [done|].
  case_bool_decide as Hxy.
  - subst y. rewrite elem_of_cons. split; [by right|]. intros [Hq|Hq]; [contradiction|done].
  - rewrite !elem_of_cons, IH. reflexivity.
Qed.

Lemma not_elem_of_list_remove (x : Path) (l : list Path) :
  NoDup l -> x ∉ list_remove x l.
Proof.
  induction l as [|y l IH]; intros Hnd; cbn; [apply not_elem_of_nil|].
  apply NoDup_cons in Hnd as [Hy Hnd].
  case_bool_decide as Hxy.
  - by subst y.
  - apply not_elem_of_cons. split; [done|by apply IH].
Qed.

Section Ops.
Variable resolve : Path -> Path.
Variable path_exists : Path -> bool.
Variable is_file : Path -> bool.
Variable st_size : Path -> Z.

#[local] Abbreviation add := (add_allowed_path resolve).
#[local] Abbreviation remove := (remove_allowed_path resolve).
#[local] Abbreviation validate := (validate_path resolve path_exists is_file st_size).

Lemma allowed_paths_add (config : SandboxConfig) (p : Path) :
  forall q, q ∈ allowed_paths (add config p) <-> q ∈ allowed_paths config \/ q = resolve p.
Proof.
  intros q. unfold add_allowed_path. case_bool_decide as Hin; cbn.
  - split; [by left|]. intros [H| ->]; done.
  - rewrite elem_of_app, list_elem_of_singleton. reflexivity.
Qed.

(** X1. After [add_allowed_path(p)] the path [p] is allowed, every
    root configured before is still configured, and nothing but the
    resolved form of [p] has been added. *)
Theorem add_allowed_path_allows (config : SandboxConfig) (p : Path) :
  is_path_allowed resolve (add config p) p = true /\
  (forall q, q ∈ allowed_paths (add config p) <->
             q ∈ allowed_paths config \/ q = resolve p).
Proof.
  split; [|apply allowed_paths_add].
  apply SandboxFacts.is_path_allowed_complete.
  exists (resolve p). split; [|by left].
  apply allowed_paths_add. by right.
Qed.

(** X2. [add_allowed_path] never stores a root twice: a list without
    repetition stays so, and adding the same path again changes
    nothing. *)
Theorem add_allowed_path_no_duplicate (config : SandboxConfig) (p : Path) :
  (NoDup (allowed_paths config) -> NoDup (allowed_paths (add config p))) /\
  add (add config p) p = add config p.
Proof.
  split.
  - intros Hnd. unfold add_allowed_path. case_bool_decide as Hin; cbn; [done|].
    apply NoDup_app. split; [done|]. split.
    + intros x Hx Hx'. apply list_elem_of_singleton in Hx'. by subst x.
    + apply NoDup_singleton.
  - unfold add_allowed_path at 1.
    rewrite bool_decide_eq_true_2; [done|].
    apply allowed_paths_add. by right.
Qed.

(** X3. Removing a path that was just added to a configuration that
    did not hold it gives the configuration back; and on a list
    without repetition [remove_allowed_path] leaves the path
    unconfigured and every other root in place. *)
Theorem remove_allowed_path_undoes_add (config : SandboxConfig) (p : Path) :
  (resolve p ∉ allowed_paths config -> remove (add config p) p = config) /\
  (NoDup (allowed_paths config) ->
   (resolve p ∉ allowed_paths (remove config p)) /\
   forall q, q <> resolve p ->
             (q ∈ allowed_paths (remove config p) <-> q ∈ allowed_paths config)).
Proof.
  split.
  - intros Hnot. unfold remove_allowed_path, add_allowed_path.
    rewrite (bool_decide_eq_false_2 (resolve p ∈ allowed_paths config)) by done. cbn.
    rewrite bool_decide_eq_true_2 by (apply elem_of_app; right; by apply list_elem_of_singleton).
    rewrite list_remove_snoc by done. unfold set_allowed_paths. cbn. by destruct config.
  - intros Hnd. unfold remove_allowed_path. case_bool_decide as Hin; cbn.
    + split; [by apply not_elem_of_list_remove|].
      intros q Hq. by apply elem_of_list_remove.
    + split; [done|]. by intros q _.
Qed.

(** X4. [validate_path] accepts a path exactly when its resolved form
    is allowed and, if it is an existing regular file, its extension is
    allowed and its size within the limit; a path that does not exist
    or is no regular file passes on the path check alone. The error
    message is absent exactly when the path is accepted. *)
Theorem validate_path_accepts_iff (config : SandboxConfig) (p : Path) :
  let path := resolve p in
  (fst (validate config p) = true <->
   is_path_allowed resolve config path = true /\
   (path_exists path = true -> is_file path = true ->
    is_extension_allowed config path = true /\ st_size path <= max_file_size config)) /\
  (snd (validate config p) = None <-> fst (validate config p) = true).
Proof.
  cbn zeta. unfold validate_path.
  destruct (is_path_allowed resolve config (resolve p)); cbn;
    [|intuition congruence].
  destruct (path_exists (resolve p)); cbn; [|intuition congruence].
  destruct (is_file (resolve p)); cbn; [|intuition congruence].
  destruct (is_extension_allowed config (resolve p)); cbn; [|intuition congruence].
  destruct (Z.ltb_spec (max_file_size config) (st_size (resolve p))); cbn;
    intuition (try congruence; try lia).
Qed.
End Ops.

End SandboxOpsFacts.

(** ** History store: what an append leaves at the end, and when
    eviction only removes *)

Module HistoryMoreFacts.
Import Ctx HistoryFacts.

Lemma filter_sublist (f : Message -> bool) (l : list Message) :
  List.filter f l `sublist_of` l.
Proof.
  induction l as [|x l IH]; cbn; [constructor|].
  destruct (f x); by constructor.
Qed.

Lemma filter_none (f : Message -> bool) (l : list Message) :
  Forall (fun m => f m = false) l -> List.filter f l = [].
Proof.
  induction 1 as [|x l Hx _ IH]; cbn; [done|]. by rewrite Hx.
Qed.

Lemma is_system_false (m : Message) : role m <> SYSTEM -> is_system m = false.
Proof. intros H. unfold is_system. by apply bool_decide_eq_false. Qed.

Lemma slice_from_drop (i : Z) (ms : list Message) :
  exists k, slice_from i ms = drop k ms.
Proof. unfold slice_from. eauto. Qed.

(** X8. When no system message lies in the window of recent messages
    that eviction keeps, eviction only removes messages: the result
    is a subsequence of the original list, so the order of the
    survivors is the original one and a list without repetition stays
    without repetition. *)
Theorem trim_only_removes (C : Z) (ms : list Message) :
  Forall (fun m => role m <> SYSTEM) (slice_from (- C + Spec.system_count ms) ms) ->
  trim C ms `sublist_of` ms /\ (NoDup ms -> NoDup (trim C ms)).
Proof.
  intros Hwindow.
  assert (Hsub : trim C ms `sublist_of` ms).
  { unfold trim. destruct (Z.ltb C (py_len ms)); [|done].
    fold (Spec.system_count ms).
    destruct (slice_from_drop (- C + Spec.system_count ms) ms) as [k Hk].
    rewrite Hk in *.
    rewrite <- (take_drop k ms) at 1 3.
    rewrite List.filter_app.
    rewrite (filter_none is_system (drop k ms)), app_nil_r.
    - apply sublist_app; [apply filter_sublist|done].
    - eapply Forall_impl; [exact Hwindow|]. intros m. apply is_system_false. }
  split; [done|]. intros Hnd. by eapply sublist_NoDup.
Qed.

Lemma last_trim_snoc (C : Z) (ms : list Message) (m : Message) :
  0 <= C -> last (trim C (ms ++ [m])) = Some m.
Proof.
  intros HC.
  destruct (Z.le_gt_cases (py_len (ms ++ [m])) C) as [Hle|Hgt].
  { rewrite trim_within by done. apply last_snoc. }
  pose proof (system_count_le (ms ++ [m])) as Hsys.
  pose proof (system_count_nonneg (ms ++ [m])) as Hsys0.
  assert (Hlen : py_len (ms ++ [m]) = py_len ms + 1).
  { rewrite py_len_app. reflexivity. }
  assert (Hdrop : forall k, (k <= List.length ms)%nat ->
                            last (List.filter is_system (ms ++ [m]) ++ drop k (ms ++ [m]))
                            = Some m).
  { intros k Hk. rewrite drop_app_le by done.
    rewrite app_assoc. apply last_snoc. }
  destruct (Z.lt_ge_cases (Spec.system_count (ms ++ [m])) C) as [Hlt|Hge].
  - rewrite trim_window by lia. apply Hdrop. unfold py_len in *. lia.
  - rewrite trim_saturated by lia.
    destruct (Z.le_gt_cases (Spec.system_count (ms ++ [m]) - C) (py_len ms)) as [Hin|Hout].
    + apply Hdrop. unfold py_len in *. lia.
    + assert (Hall : Spec.system_count (ms ++ [m]) = py_len ms + 1) by lia.
      rewrite drop_ge by (unfold py_len in *; rewrite length_app; cbn; lia).
      rewrite app_nil_r.
      unfold Spec.system_count in Hall. rewrite List.filter_app, py_len_app in Hall.
      rewrite List.filter_app. cbn in *.
      pose proof (List.filter_length_le is_system ms) as Hfilter.
      destruct (is_system m); [apply last_snoc|].
      exfalso. unfold py_len in *. cbn in Hall. lia.
Qed.

(** X6. For a ceiling that is not negative, the message an
    [add_message] call appends is the last message of the store when
    the call returns: eviction never takes the newest message. *)
Theorem add_message_is_last (ctx : Context) (r : MessageRole) (text : string)
    (md : list (string * pyval)) (now : Z) :
  0 <= max_history_length ctx ->
  last (messages (add_message ctx r text md now)) = Some (MkMessage r text now md).
Proof. intros HC. rewrite messages_add_message. by apply last_trim_snoc. Qed.

Lemma add_observations_snoc (repr_str : string -> string) (ctx : Context)
    (calls : list (Observation * Z)) (o : Observation) (t : Z) :
  CtxOps.add_observations repr_str ctx (calls ++ [(o, t)])
  = add_observation repr_str (CtxOps.add_observations repr_str ctx calls) o t.
Proof. unfold CtxOps.add_observations. by rewrite fold_left_app. Qed.

Lemma max_history_length_add_observations (repr_str : string -> string)
    (calls : list (Observation * Z)) (ctx : Context) :
  max_history_length (CtxOps.add_observations repr_str ctx calls) = max_history_length ctx.
Proof.
  induction calls as [|[o t] calls IH] using rev_ind; [done|].
  rewrite add_observations_snoc. cbn. exact IH.
Qed.

(** X7. Observations are never evicted: after any sequence of
    [add_observation] calls the observation list is the one before
    followed by all the observations added, in order, whatever the
    ceiling does to the messages. And for a ceiling that is not
    negative the store ends with the tool message synthesized for the
    last observation. *)
Theorem observations_are_kept (repr_str : string -> string) (ctx : Context)
    (calls : list (Observation * Z)) :
  observations (CtxOps.add_observations repr_str ctx calls)
  = (observations ctx ++ map fst calls)%list /\
  (0 <= max_history_length ctx ->
   forall o t, last calls = Some (o, t) ->
     last (messages (CtxOps.add_observations repr_str ctx calls))
     = Some (CtxOps.tool_message repr_str o t)).
Proof.
  split.
  - induction calls as [|[o t] calls IH] using rev_ind; cbn.
    + by rewrite app_nil_r.
    + rewrite add_observations_snoc, map_app, app_assoc, <- IH. reflexivity.
  - intros HC o t Hlast. apply last_Some in Hlast as [calls' ->].
    rewrite add_observations_snoc. unfold add_observation.
    rewrite add_message_is_last.
    + unfold CtxOps.tool_message. by destruct (success o).
    + cbn. by rewrite max_history_length_add_observations.
Qed.

End HistoryMoreFacts.

(** ** Dispatcher: unknown tools, tool faults, allowed paths *)

Module LoopMoreFacts.
Import Loop LoopFacts.

Section Dispatch.
Context {World : Type}.
Variable resolve : Path -> Path.
Variable json_loads : string -> option pyval.
Variable repr_str : string -> string.
Variable now : nat -> Z.

#[local] Abbreviation execute_tool := (_execute_tool (World:=World) resolve repr_str).
#[local] Abbreviation gate := (path_gate (World:=World) resolve).

(** X9. A tool name that can be hashed and is not a key of the
    registry gives the failure result "Unknown tool: <name>"; nothing
    is raised, no tool is called and the state is left as it was. *)
Theorem unknown_tool_fails (self : Agent World) (name params : pyval)
    (context : Ctx.Context) (st : LoopState World) :
  (forall l, name <> PList l) ->
  (forall d, name <> PDict d) ->
  (forall s, name = PStr s -> tools self !! s = None) ->
  execute_tool self name params context st
  = (Ok (Tools.failure ("Unknown tool: " ++ py_str repr_str name)), st).
Proof.
  intros Hlist Hdict Hkey. unfold _execute_tool, find_tool.
  destruct name as [| | | |s|l|d]; try reflexivity.
  - by rewrite (Hkey s eq_refl).
  - by destruct (Hlist l).
  - by destruct (Hdict d).
Qed.

(** Once the gate is open, the dispatcher's answer is that of the
    call block. *)
Lemma execute_tool_gate_open (self : Agent World) (key : string) (tool : Tool World)
    (params : pyval) (context : Ctx.Context) (st : LoopState World) :
  tools self !! key = Some tool ->
  gate tool params context = Ok None ->
  execute_tool self (PStr key) params context st
  = (Ok (fst (invoke key tool params st)), snd (invoke key tool params st)).
Proof.
  intros Htool Hgate. unfold _execute_tool.
  rewrite (find_tool_registered _ _ _ Htool), Hgate.
  by destruct (invoke key tool params st).
Qed.

(** X10. For a registered tool that requires no path check the
    dispatcher never raises, whatever the parameters: the tool's own
    result is handed on, and what the tool raises comes back as a
    failure result carrying the text of the exception. *)
Theorem tool_fault_becomes_failure (self : Agent World) (key : string)
    (tool : Tool World) (params : pyval) (context : Ctx.Context) (st : LoopState World) :
  tools self !! key = Some tool ->
  requires_path_check tool = false ->
  exists result st',
    execute_tool self (PStr key) params context st = (Ok result, st') /\
    forall d, params = PDict d ->
      calls st' = (calls st ++ [(key, d)])%list /\
      world st' = snd (execute tool d (world st)) /\
      match fst (execute tool d (world st)) with
      | Ok r => result = r
      | Raise e => result = Tools.failure (exn_msg e)
      end.
Proof.
  intros Htool Hreq.
  assert (Hgate : gate tool params context = Ok None).
  { unfold path_gate. by rewrite Hreq. }
  rewrite (execute_tool_gate_open _ _ _ _ _ _ Htool Hgate).
  eexists _, _. split; [reflexivity|].
  intros d ->. unfold invoke.
  destruct (execute tool d (world st)) as [[r|e] w]; cbn; auto.
Qed.

(** X11. For a tool that requires the path check, a path parameter
    that the context allows opens the gate: the tool is called once,
    with the parameters as given, and its result (or its fault, as a
    failure result) is the dispatcher's answer. *)
Theorem allowed_path_is_executed (self : Agent World) (key : string)
    (tool : Tool World) (d : list (string * pyval)) (p : string)
    (context : Ctx.Context) (st : LoopState World) :
  tools self !! key = Some tool ->
  requires_path_check tool = true ->
  py_or (dict_get d "path" PNone) (dict_get d "file_path" PNone) = PStr p ->
  Ctx.is_path_allowed resolve context (path_of_string p) = true ->
  exists result st',
    execute_tool self (PStr key) (PDict d) context st = (Ok result, st') /\
    calls st' = (calls st ++ [(key, d)])%list /\
    world st' = snd (execute tool d (world st)) /\
    match fst (execute tool d (world st)) with
    | Ok r => result = r
    | Raise e => result = Tools.failure (exn_msg e)
    end.
Proof.
  intros Htool Hreq Hpath Hallowed.
  assert (Hgate : gate tool (PDict d) context = Ok None).
  { unfold path_gate. rewrite Hreq, Hpath. cbn.
    destruct (String.eqb p ""); cbn; [done|]. by rewrite Hallowed. }
  rewrite (execute_tool_gate_open _ _ _ _ _ _ Htool Hgate).
  eexists _, _. split; [reflexivity|]. unfold invoke.
  destruct (execute tool d (world st)) as [[r|e] w]; cbn; auto.
Qed.
End Dispatch.

(** ** Runs: the shape of the result, and the record of tool calls *)

Section Run.
Context {World : Type}.
Variable resolve : Path -> Path.
Variable json_loads : string -> option pyval.
Variable repr_str : string -> string.
Variable now : nat -> Z.

#[local] Abbreviation execute_tool := (_execute_tool (World:=World) resolve repr_str).
#[local] Abbreviation get_decision := (_get_decision (World:=World) json_loads).
#[local] Abbreviation act := (Loop.act (World:=World) resolve repr_str now).
#[local] Abbreviation iteration := (Loop.iteration (World:=World) resolve json_loads repr_str now).
#[local] Abbreviation while_loop := (Loop.while_loop (World:=World) resolve json_loads repr_str now).
#[local] Abbreviation run := (Loop.run (World:=World) resolve json_loads repr_str now).

Lemma get_decision_calls (self : Agent World) (context : Ctx.Context)
    (st st' : LoopState World) (out : outcome AgentDecision) :
  get_decision self context st = (out, st') -> calls st' = calls st.
Proof.
  unfold _get_decision.
  destruct (llm self (Ctx.get_messages_for_llm context) (world st)) as [[response|e] w].
  - destruct (json_loads response) as [[]|]; intros H; by injection H as <- <-.
  - intros H. by injection H as <- <-.
Qed.

(** The dispatcher either leaves the record of calls alone or adds
    the one call it made, under the name and with the mapping it was
    given. *)
Lemma execute_tool_calls (self : Agent World) (name params : pyval)
    (context : Ctx.Context) (st st' : LoopState World) (out : outcome Tools.ToolResult) :
  execute_tool self name params context st = (out, st') ->
  calls st' = calls st \/
  exists key d result,
    out = Ok result /\ name = PStr key /\ params = PDict d /\
    calls st' = (calls st ++ [(key, d)])%list.
Proof.
  unfold _execute_tool.
  destruct (find_tool self name) as [[[key tool]|]|e] eqn:Hfind.
  - assert (name = PStr key) as ->.
    { unfold find_tool in Hfind. destruct name; try discriminate.
      destruct (tools self !! s); cbn in Hfind; [|discriminate].
      by injection Hfind as <- _. }
    destruct (path_gate resolve tool params context) as [[rejection|]|e].
    + intros H. injection H as <- <-. by left.
    + destruct params as [| | | | | |d];
        try (cbn; intros H; injection H as <- <-; by left).
      pose proof (invoke_calls key tool d st) as Hcalls.
      destruct (invoke key tool (PDict d) st) as [r st1]. cbn in Hcalls.
      intros H. injection H as <- <-. right. by exists key, d, r.
    + intros H. injection H as <- <-. by left.
  - intros H. injection H as <- <-. by left.
  - intros H. injection H as <- <-. by left.
Qed.

(** How a pass can end, and what it then has recorded. *)
Lemma act_cases (self : Agent World) (iterations : Z) (context : Ctx.Context)
    (decision : AgentDecision) (st st' : LoopState World) (out : outcome step) :
  act self iterations context decision st = (out, st') ->
  match out with
  | Raise e => calls st' = calls st
  | Ok (Return r) =>
      success r = true /\ error r = None /\ Loop.iterations r = iterations /\
      observations r = Ctx.observations context /\ calls st' = calls st
  | Ok (Continue context') =>
      (context' = context /\ calls st' = calls st) \/
      exists o t,
        context' = Ctx.add_observation repr_str context o t /\
        (calls st' = calls st \/
         exists call, calls st' = (calls st ++ [call])%list /\
                      LoopOps.call_as_observed call = LoopOps.observed o)
  end.
Proof.
  unfold Loop.act. destruct (truthy (is_complete decision)).
  { intros H. injection H as <- <-. cbn. auto. }
  destruct (truthy (tool_name decision)).
  2: { intros H. injection H as <- <-. by left. }
  destruct (execute_tool self (tool_name decision) (tool_params decision) context
              (executing self decision st)) as [[result|e] st1] eqn:Hexec.
  - apply execute_tool_calls in Hexec.
    intros H. injection H as <- <-. right. eexists _, _. split; [reflexivity|].
    destruct Hexec as [Hsame|(key & d & r & _ & Hname & Hparams & Hcalls)].
    + left. exact Hsame.
    + right. exists (key, d). split; [exact Hcalls|].
      unfold LoopOps.call_as_observed, LoopOps.observed. cbn. by rewrite Hname, Hparams.
  - apply execute_tool_calls in Hexec.
    intros H. injection H as <- <-.
    destruct Hexec as [Hsame|(key & d & r & Hout & _)]; [exact Hsame|discriminate].
Qed.

Lemma iteration_cases (self : Agent World) (iterations : Z) (context : Ctx.Context)
    (st st' : LoopState World) (out : outcome step) :
  iteration self iterations context st = (out, st') ->
  match out with
  | Raise e => calls st' = calls st
  | Ok (Return r) =>
      success r = true /\ error r = None /\ Loop.iterations r = iterations /\
      observations r = Ctx.observations context /\ calls st' = calls st
  | Ok (Continue context') =>
      (context' = context /\ calls st' = calls st) \/
      exists o t,
        context' = Ctx.add_observation repr_str context o t /\
        (calls st' = calls st \/
         exists call, calls st' = (calls st ++ [call])%list /\
                      LoopOps.call_as_observed call = LoopOps.observed o)
  end.
Proof.
  unfold Loop.iteration.
  destruct (get_decision self context (thinking self iterations st))
    as [[decision|e] st1] eqn:Hdecision.
  - apply get_decision_calls in Hdecision. cbn in Hdecision.
    intros Hact. apply act_cases in Hact. rewrite Hdecision in Hact. exact Hact.
  - apply get_decision_calls in Hdecision. intros H. by injection H as <- <-.
Qed.

(** What a loop of [remaining] passes, entered with the counter at
    [iterations], returns and records. *)
Lemma while_loop_result (self : Agent World) :
  forall (remaining : nat) (iterations : Z) (context : Ctx.Context)
         (st st' : LoopState World) (r : AgentResult),
  while_loop self remaining iterations context st = (r, st') ->
  exists new extra,
    calls st' = (calls st ++ new)%list /\
    observations r = (Ctx.observations context ++ extra)%list /\
    map LoopOps.call_as_observed new `sublist_of` map LoopOps.observed extra /\
    Ctx.py_len extra <= Loop.iterations r - iterations /\
    iterations <= Loop.iterations r <= iterations + Z.of_nat remaining /\
    (success r = true <-> error r = None) /\
    (success r = false -> output r = PStr "") /\
    (success r = true -> iterations < Loop.iterations r).
Proof.
  assert (Hnil : Ctx.py_len (@nil Ctx.Observation) = 0) by reflexivity.
  induction remaining as [|remaining IH]; intros iterations context st st' r Hloop.
  - cbn in Hloop. injection Hloop as <- <-. exists [], []. cbn.
    rewrite !app_nil_r. split_and!; try done; lia.
  - cbn [Loop.while_loop] in Hloop.
    destruct (iteration self (iterations + 1) context st) as [[[res|context']|e] st1] eqn:Hiter;
      apply iteration_cases in Hiter.
    + injection Hloop as <- <-.
      destruct Hiter as (Hok & Herr & Hk & Hobs & Hcalls).
      exists [], []. rewrite !app_nil_r. cbn.
      split_and!; try done; try lia; try congruence.
    + apply IH in Hloop
        as (new & extra & Hcalls & Hobs & Hsub & Hlen & Hrange & Hiff & Hout & Hpos).
      assert (Hpos' : success r = true -> iterations < Loop.iterations r).
      { intros H. specialize (Hpos H). lia. }
      destruct Hiter as [[-> Hsame]|(o & t & -> & Hcall)].
      * exists new, extra. rewrite Hcalls, Hsame.
        split_and!; try done; lia.
      * assert (Hlen' : Ctx.py_len (o :: extra) = 1 + Ctx.py_len extra).
        { unfold Ctx.py_len. cbn [List.length]. lia. }
        destruct Hcall as [Hsame|(call & Hadd & Hobserved)].
        -- exists new, (o :: extra). rewrite Hcalls, Hsame, Hobs.
           rewrite observations_add_observation, <- app_assoc.
           split_and!; try done; try lia.
           cbn. by apply sublist_cons.
        -- exists (call :: new), (o :: extra). rewrite Hcalls, Hadd, Hobs.
           rewrite observations_add_observation, <- !app_assoc.
           split_and!; try done; try lia.
           cbn. rewrite Hobserved. by apply sublist_skip.
    + unfold on_exception in Hloop. injection Hloop as <- <-.
      exists [], []. rewrite !app_nil_r. cbn.
      split_and!; try done; lia.
Qed.

(** X12. Every run returns a well-formed result: the error text is
    absent exactly when [success] is true, a failed run has the empty
    output, the iteration count lies between 0 and the budget (0 for a
    negative budget), and a successful run has made at least one pass. *)
Theorem run_result_is_well_formed (self : Agent World) (task : string)
    (allowed : option (list string)) (st : LoopState World) :
  let r := fst (run self task allowed st) in
  (success r = true <-> error r = None) /\
  (success r = false -> output r = PStr "") /\
  0 <= Loop.iterations r <= Z.max 0 (max_iterations self) /\
  (success r = true -> 1 <= Loop.iterations r).
Proof.
  cbn zeta. rewrite run_unfold.
  destruct (while_loop _ _ _ _ _) as [r st'] eqn:Hloop.
  apply while_loop_result in Hloop
    as (new & extra & _ & _ & _ & _ & Hrange & Hiff & Hout & Hpos).
  cbn. split_and!; try done; try lia.
  intros H. specialize (Hpos H). lia.
Qed.

(** X13. No tool runs unrecorded: the tool calls a run makes are, in
    order, among the observations of its result, each under the name
    and with the parameters of its call; and a run records at most one
    observation per pass. *)
Theorem run_records_every_tool_call (self : Agent World) (task : string)
    (allowed : option (list string)) (st : LoopState World) :
  let r := fst (run self task allowed st) in
  let st' := snd (run self task allowed st) in
  exists new,
    calls st' = (calls st ++ new)%list /\
    map LoopOps.call_as_observed new `sublist_of` map LoopOps.observed (observations r) /\
    Ctx.py_len (observations r) <= Loop.iterations r.
Proof.
  cbn zeta. rewrite run_unfold.
  destruct (while_loop _ _ _ _ _) as [r st'] eqn:Hloop.
  apply while_loop_result in Hloop
    as (new & extra & Hcalls & Hobs & Hsub & Hlen & _).
  rewrite initial_context_observations in Hobs. cbn in Hobs.
  destruct (initial_context_state resolve now self task allowed st) as (_ & Hc & _).
  cbn. exists new. rewrite Hcalls, Hc, Hobs. split_and!; [done|done|lia].
Qed.
End Run.

(** ** Runs: the history under the default ceiling *)

Section History.
Context {World : Type}.
Variable resolve : Path -> Path.
Variable json_loads : string -> option pyval.
Variable repr_str : string -> string.
Variable now : nat -> Z.

Lemma system_count_app (l1 l2 : list Ctx.Message) :
  Spec.system_count (l1 ++ l2) = Spec.system_count l1 + Spec.system_count l2.
Proof. unfold Spec.system_count. by rewrite List.filter_app, HistoryFacts.py_len_app. Qed.

Lemma system_count_none (l : list Ctx.Message) :
  Forall (fun m => Ctx.role m <> Ctx.SYSTEM) l -> Spec.system_count l = 0.
Proof.
  intros H. unfold Spec.system_count.
  rewrite HistoryMoreFacts.filter_none; [done|].
  eapply Forall_impl; [exact H|]. intros m. apply HistoryMoreFacts.is_system_false.
Qed.

Lemma filter_filter (f : Ctx.Message -> bool) (l : list Ctx.Message) :
  List.filter f (List.filter f l) = List.filter f l.
Proof.
  induction l as [|x l IH]; cbn; [done|].
  destruct (f x) eqn:Hx; cbn; [|done]. by rewrite Hx, IH.
Qed.

Lemma prompt_leads_count (ms : list Ctx.Message) :
  LoopOps.prompt_leads ms -> Ctx.py_len ms <= 50 /\ Spec.system_count ms = 1.
Proof.
  intros (Hlen & pre & rest & -> & _ & Hpre & Hrest). split; [done|].
  rewrite system_count_app, Hpre, system_count_none by done. lia.
Qed.

(** Appending a message that is no system message and evicting with
    ceiling 50 keeps the shape of the history. *)
Lemma prompt_leads_append (ms : list Ctx.Message) (m : Ctx.Message) :
  LoopOps.prompt_leads ms -> Ctx.role m <> Ctx.SYSTEM ->
  LoopOps.prompt_leads (Ctx.trim 50 (ms ++ [m])).
Proof.
  intros (Hlen & pre & rest & -> & Hpre2 & Hpre & Hrest) Hm.
  assert (Hrest' : Forall (fun m => Ctx.role m <> Ctx.SYSTEM) (rest ++ [m])).
  { apply Forall_app. split; [done|]. by apply Forall_singleton. }
  assert (Hcount : Spec.system_count ((pre ++ rest) ++ [m]) = 1).
  { rewrite <- app_assoc, system_count_app, Hpre, system_count_none by done. lia. }
  assert (Hlen' : Ctx.py_len ((pre ++ rest) ++ [m]) = Ctx.py_len (pre ++ rest) + 1).
  { by rewrite HistoryFacts.py_len_app. }
  destruct (Z.le_gt_cases (Ctx.py_len ((pre ++ rest) ++ [m])) 50) as [Hle|Hgt].
  - rewrite HistoryFacts.trim_within by done.
    split; [done|]. exists pre, (rest ++ [m])%list. by rewrite app_assoc.
  - split; [rewrite HistoryFacts.trim_length_window; lia|].
    rewrite HistoryFacts.trim_window by lia.
    rewrite Hcount.
    replace (Z.to_nat (Ctx.py_len ((pre ++ rest) ++ [m]) - (50 - 1))) with 2%nat by lia.
    rewrite <- app_assoc.
    exists (List.filter Ctx.is_system (pre ++ rest ++ [m])),
           (drop (2 - List.length pre) (rest ++ [m])).
    assert (Hfilter : List.filter Ctx.is_system (pre ++ rest ++ [m])
                      = List.filter Ctx.is_system pre).
    { rewrite List.filter_app, (HistoryMoreFacts.filter_none Ctx.is_system (rest ++ [m])).
      - by rewrite app_nil_r.
      - eapply Forall_impl; [exact Hrest'|]. intros x. apply HistoryMoreFacts.is_system_false. }
    split_and!.
    + f_equal. rewrite drop_app, (drop_ge pre) by lia. reflexivity.
    + rewrite Hfilter. pose proof (List.filter_length_le Ctx.is_system pre). lia.
    + rewrite Hfilter. unfold Spec.system_count in *. by rewrite filter_filter.
    + by apply Forall_drop.
Qed.

(** X14. Throughout a run, whose context has the default ceiling of
    50, the history shown to the model holds at most 50 messages and
    exactly one system message, and the system prompt the run started
    with is still in it: the prompt is never evicted and never
    repeated, however many observations are appended. *)
Theorem run_history_keeps_prompt (self : Agent World) (task : string)
    (allowed : option (list string)) (st : LoopState World) (context : Ctx.Context) :
  LoopOps.reachable resolve json_loads repr_str now self
    (fst (initial_context resolve now self task allowed st)) context ->
  Ctx.py_len (Ctx.messages context) <= 50 /\
  Spec.system_count (Ctx.messages context) = 1 /\
  exists t, Ctx.MkMessage Ctx.SYSTEM (system_prompt self) t [] ∈ Ctx.messages context.
Proof.
  intros Hreach.
  assert (Hinv : Ctx.max_history_length context = 50 /\
                 LoopOps.prompt_leads (Ctx.messages context) /\
                 exists t, Ctx.MkMessage Ctx.SYSTEM (system_prompt self) t []
                           ∈ Ctx.messages context).
  { induction Hreach as [|context context' iterations st1 st2 _ IH Hiter].
    - unfold initial_context, Ctx.new_context. cbn.
      destruct (String.eqb task ""); cbn.
      + split; [done|]. split.
        * split; [done|]. eexists [_], []. split_and!; try done. cbn. lia.
        * eexists. apply list_elem_of_singleton. reflexivity.
      + split; [done|]. split.
        * split; [done|]. eexists [_; _], []. split_and!; try done.
        * eexists. apply elem_of_cons. right. apply list_elem_of_singleton. reflexivity.
    - destruct IH as (HC & Hshape & t & Hprompt).
      apply iteration_cases in Hiter as [[-> _]|(o & t' & -> & _)]; [eauto|].
      unfold Ctx.add_observation. rewrite HistoryFacts.messages_add_message. cbn.
      rewrite HC. split_and!; [done| |].
      + by apply prompt_leads_append.
      + exists t. apply HistoryFacts.trim_keeps_system; [|done].
        apply elem_of_app. by left. }
  destruct Hinv as (_ & Hshape & Hprompt).
  apply prompt_leads_count in Hshape as [Hlen Hcount]. auto.
Qed.
End History.

End LoopMoreFacts.

(** ** Parameter validation *)

Module ToolsOpsFacts.
Import ToolsOps.

(** X15. [validate_params] accepts exactly when every required
    parameter is among the keyword arguments; otherwise its message
    names the first required parameter that is missing, in the order
    of the schema. The message is absent exactly on acceptance. *)
Theorem validate_params_reports_first_missing (required : list string)
    (kwargs : list (string * pyval)) :
  (fst (validate_params required kwargs) = true <->
   Forall (fun param => is_Some (assoc param kwargs)) required) /\
  (snd (validate_params required kwargs) = None <->
   fst (validate_params required kwargs) = true) /\
  (fst (validate_params required kwargs) = false ->
   exists present param rest,
     required = (present ++ param :: rest)%list /\
     Forall (fun param => is_Some (assoc param kwargs)) present /\
     assoc param kwargs = None /\
     snd (validate_params required kwargs)
     = Some ("Missing required parameter: " ++ param)).
Proof.
  induction required as [|param required (IHok & IHmsg & IHmissing)]; cbn.
  - split_and!; try done.
  - destruct (assoc param kwargs) as [v|] eqn:Hparam; cbn.
    + split_and!.
      * rewrite IHok. split.
        -- intros H. constructor; [by rewrite Hparam|done].
        -- intros H. by apply Forall_cons in H as [_ H].
      * exact IHmsg.
      * intros Hfail. destruct (IHmissing Hfail) as (present & p & rest & -> & Hpre & Hp & Hmsg).
        exists (param :: present), p, rest. split_and!; try done.
        constructor; [by rewrite Hparam|done].
    + split_and!.
      * split; [discriminate|]. intros H. apply Forall_cons in H as [[v Hv] _]. congruence.
      * split; discriminate.
      * intros _. exists [], param, required. split_and!; try done.
Qed.

End ToolsOpsFacts.

(** ** Subagent manager: cancellation, batches, summaries *)

Module SubagentMoreFacts.
Import Subagent SubagentOps.

(** X16. [cancel_task] succeeds exactly for a registered task that is
    still pending; it then marks that task cancelled and touches no
    other task, and otherwise changes nothing. A second cancellation
    of the same task fails. *)
Theorem cancel_task_only_pending {World : Type} (self : Manager World) (task_id : string) :
  let ok := fst (cancel_task self task_id) in
  let self' := snd (cancel_task self task_id) in
  (ok = true <-> exists task, tasks self !! task_id = Some task /\ status task = PENDING) /\
  (ok = true ->
   exists task, tasks self !! task_id = Some task /\
                tasks self' !! task_id = Some (set_status task CANCELLED)) /\
  (ok = false -> self' = self) /\
  (forall other, other <> task_id -> tasks self' !! other = tasks self !! other) /\
  fst (cancel_task self' task_id) = false.
Proof.
  cbn zeta. unfold cancel_task.
  destruct (tasks self !! task_id) as [task|] eqn:Htask.
  - destruct (status task) eqn:Hstatus; cbn;
      rewrite ?lookup_insert_eq, ?Htask; cbn; rewrite ?Hstatus; cbn;
      (split_and!;
       [ first [ split; [intros _; by exists task | done]
               | split; [discriminate | intros (t & Ht & Hp); congruence] ]
       | first [ discriminate | intros _; by exists task ]
       | first [ discriminate | done ]
       | intros other Hne; by rewrite ?lookup_insert_ne
       | reflexivity ]).
  - cbn. rewrite Htask. split_and!; try done.
    split; [discriminate|]. intros (t & Ht & _). discriminate.
Qed.

Section Batches.
Context {World : Type}.
Variable uuid4 : nat -> string.
Variable now : nat -> Z.
Variable execute_parallel :
  list SubagentTask -> Manager World -> outcome (list SubagentResult) * Manager World.

#[local] Abbreviation create_tasks := (Subagent.create_tasks (World:=World) uuid4 now).
#[local] Abbreviation spawn_and_wait :=
  (Subagent.spawn_and_wait (World:=World) uuid4 now execute_parallel).
#[local] Abbreviation execute := (Subagent.execute (World:=World) uuid4 now execute_parallel).

(** An entry the list comprehension accepts: a mapping with a
    ["description"]. *)
#[local] Abbreviation well_formed :=
  (fun entry : pyval => exists d v, entry = PDict d /\ assoc "description" d = Some v).

Lemma create_tasks_app (self : Manager World) (pre rest : list pyval) (allowed : list string) :
  create_tasks self (pre ++ rest) allowed
  = match create_tasks self pre allowed with
    | (Ok created, self') =>
        match create_tasks self' rest allowed with
        | (Ok created', self'') => (Ok (created ++ created')%list, self'')
        | (Raise e, self'') => (Raise e, self'')
        end
    | (Raise e, self') => (Raise e, self')
    end.
Proof.
  revert self. induction pre as [|entry pre IH]; intros self; cbn.
  - by destruct (create_tasks self rest allowed) as [[]].
  - destruct (subscript_description entry) as [descr|e]; [|done].
    rewrite IH.
    destruct (create_tasks _ pre allowed) as [[created|e] self1]; [|done].
    by destruct (create_tasks self1 rest allowed) as [[]].
Qed.

(** What a batch of well-formed entries creates. *)
Lemma create_tasks_well_formed (allowed : list string) :
  forall (entries : list pyval) (self : Manager World),
  Forall well_formed entries ->
  exists created self',
    create_tasks self entries allowed = (Ok created, self') /\
    map id created = map uuid4 (seq (drawn self) (List.length entries)) /\
    drawn self' = (drawn self + List.length entries)%nat /\
    launched self' = launched self /\
    world self' = world self /\
    Forall2 (fun entry task => subscript_description entry = Ok (description task))
            entries created /\
    Forall (fun task => status task = PENDING /\ result task = None) created /\
    (forall key, key ∉ map id created -> tasks self' !! key = tasks self !! key) /\
    ((forall i j, uuid4 i = uuid4 j -> i = j) ->
     forall task, task ∈ created -> tasks self' !! id task = Some task).
Proof.
  induction entries as [|entry entries IH]; intros self Hwf.
  - exists [], self. cbn. split_and!; try done; try lia.
    intros _ task Htask. by apply elem_of_nil in Htask.
  - apply Forall_cons in Hwf as [(d & v & -> & Hdescr) Hwf].
    cbn. rewrite Hdescr.
    set (task := {| id := uuid4 (drawn self); description := v |}).
    set (self1 := {| tasks := <[uuid4 (drawn self) := task]> (tasks self) |}).
    destruct (IH self1 Hwf)
      as (created & self' & Hcreate & Hids & Hdrawn & Hlaunched & Hworld
          & Hdescrs & Hpending & Hother & Hfind).
    rewrite Hcreate. exists (task :: created), self'. cbn in *.
    split_and!; try done.
    + by rewrite Hids.
    + lia.
    + constructor; [|done]. cbn. by rewrite Hdescr.
    + by constructor.
    + intros key Hkey. apply not_elem_of_cons in Hkey as [Hne Hkey].
      rewrite (Hother key Hkey). by apply lookup_insert_ne.
    + intros Hinj t Ht. apply elem_of_cons in Ht as [->|Ht]; [|by apply Hfind].
      cbn. rewrite Hother; [apply lookup_insert_eq|].
      rewrite Hids. intros Hin. apply list_elem_of_fmap in Hin as (k & Hk & Hseq).
      apply Hinj in Hk. apply elem_of_seq in Hseq. lia.
Qed.

(** X17. A batch of well-formed entries creates one pending task per
    entry, in order, with the entry's description and the next
    identifiers drawn, and starts nothing by itself; when [uuid4]
    never repeats an identifier, each of these tasks is found again
    under its id. *)
Theorem batch_creates_one_task_per_entry (allowed : list string)
    (entries : list pyval) (self : Manager World) :
  Forall well_formed entries ->
  exists created self',
    create_tasks self entries allowed = (Ok created, self') /\
    map id created = map uuid4 (seq (drawn self) (List.length entries)) /\
    Forall2 (fun entry task => subscript_description entry = Ok (description task))
            entries created /\
    Forall (fun task => status task = PENDING /\ result task = None) created /\
    launched self' = launched self /\
    ((forall i j, uuid4 i = uuid4 j -> i = j) ->
     forall task, task ∈ created -> get_task self' (id task) = Some task).
Proof.
  intros Hwf.
  destruct (create_tasks_well_formed allowed entries self Hwf)
    as (created & self' & Hcreate & Hids & _ & Hlaunched & _ & Hdescrs & Hpending & _ & Hfind).
  exists created, self'. split_and!; try done.
Qed.

(** X18. An entry without a description stops the batch: the call
    raises, no fan-out is started, and the tasks created for the
    entries before it stay registered as pending. *)
Theorem malformed_entry_stops_batch (allowed : list string)
    (pre rest : list pyval) (bad : pyval) (e : exn) (self : Manager World) :
  Forall well_formed pre ->
  subscript_description bad = Raise e ->
  exists created self',
    create_tasks self pre allowed = (Ok created, self') /\
    List.length created = List.length pre /\
    spawn_and_wait self (PList (pre ++ bad :: rest)) allowed = (Raise e, self') /\
    launched self' = launched self /\
    drawn self' = (drawn self + List.length pre)%nat.
Proof.
  intros Hwf Hbad.
  destruct (create_tasks_well_formed allowed pre self Hwf)
    as (created & self' & Hcreate & Hids & Hdrawn & Hlaunched & _ & Hdescrs & _).
  exists created, self'. split_and!; try done.
  - by apply Forall2_length in Hdescrs.
  - unfold Subagent.spawn_and_wait. cbn [items_of].
    rewrite create_tasks_app, Hcreate. cbn. by rewrite Hbad.
Qed.

(** X19. An accepted batch is a success as soon as one child
    succeeded and a failure only when every child failed; the counts
    reported add up, and the results are listed in the order of the
    fan-out. *)
Theorem batch_succeeds_with_one_child (allowed : list string)
    (kwargs : list (string * pyval)) (subtasks : list pyval) (self self' : Manager World)
    (results : list SubagentResult) :
  dict_get kwargs "subtasks" (PList []) = PList subtasks ->
  subtasks <> [] ->
  Ctx.py_len subtasks <= 10 ->
  spawn_and_wait self (PList subtasks) allowed = (Ok results, self') ->
  exists result successful failed,
    execute allowed kwargs self = (Ok result, self') /\
    (Tools.success result = true <-> exists r, r ∈ results /\ success r = true) /\
    Tools.error result = None /\
    Tools.output result
    = PDict [("total", PInt (Ctx.py_len results));
             ("successful", PInt successful);
             ("failed", PInt failed);
             ("results", PList (map result_entry results))] /\
    successful + failed = Ctx.py_len results /\
    0 <= successful /\ 0 <= failed.
Proof.
  intros Hget Hne Hlen Hspawn. unfold Subagent.execute.
  rewrite Hget. destruct subtasks as [|entry rest]; [done|].
  cbn [truthy negb len_of].
  destruct (Z.ltb_spec 10 (Ctx.py_len (entry :: rest))); [lia|].
  rewrite Hspawn.
  pose proof (List.filter_length_le success results) as Hfilter.
  eexists _, _, _. split; [reflexivity|]. cbn.
  split_and!; try done; try (unfold Ctx.py_len; lia).
  rewrite Z.ltb_lt. unfold Ctx.py_len. split.
  - intros Hpos. destruct (List.filter success results) as [|r l] eqn:Hf; [cbn in Hpos; lia|].
    exists r. assert (Hin : In r (List.filter success results)) by (rewrite Hf; by left).
    apply List.filter_In in Hin as [Hin Hr]. split; [by apply list_elem_of_In|done].
  - intros (r & Hin & Hr).
    assert (Hin' : In r (List.filter success results)).
    { apply List.filter_In. split; [by apply list_elem_of_In|done]. }
    destruct (List.filter success results); [done|cbn; lia].
Qed.
End Batches.

End SubagentMoreFacts.

(** ** Subagent summaries *)

Module SummaryFacts.
Import SubagentOps.

Lemma length_append (s1 s2 : string) :
  String.length (s1 ++ s2) = (String.length s1 + String.length s2)%nat.
Proof. induction s1 as [|a s1 IH]; simpl; [done|]. by f_equal. Qed.

Lemma length_substring_prefix (n : nat) (s : string) :
  (n <= String.length s)%nat -> String.length (String.substring 0 n s) = n.
Proof.
  revert s. induction n as [|n IH]; intros s Hn.
  - by destruct s.
  - destruct s as [|a s]; cbn in *; [lia|]. rewrite IH; lia.
Qed.

(** X20. The summary of a successful child is "Completed: " followed
    by the text of its output, unchanged when it has at most 500
    characters and otherwise cut to its first 500 characters followed
    by "..."; so such a summary never has more than 514 characters. *)
Theorem summary_of_success_is_bounded (repr_str : string -> string)
    (result : Loop.AgentResult) :
  Loop.success result = true ->
  let text := py_str repr_str (Loop.output result) in
  (Pathlib.len text <= 500 -> _summarize_result repr_str result = "Completed: " ++ text) /\
  (500 < Pathlib.len text ->
   _summarize_result repr_str result
   = "Completed: " ++ String.substring 0 500 text ++ "...") /\
  Pathlib.len (_summarize_result repr_str result) <= 514.
Proof.
  intros Hok. cbn zeta. unfold _summarize_result. rewrite Hok.
  destruct (Z.ltb_spec 500 (Pathlib.len (py_str repr_str (Loop.output result)))) as [Hlong|Hshort].
  - split_and!; [lia|done|].
    unfold Pathlib.len in *. rewrite !length_append, length_substring_prefix by lia.
    cbn. lia.
  - split_and!; [done|lia|].
    unfold Pathlib.len in *. rewrite length_append. cbn. lia.
Qed.

End SummaryFacts.

(** ** The two path checks side by side *)

Module PathCheckFacts.

(** X5. [Context.is_path_allowed], the check the loop's dispatcher
    uses, accepts exactly the allowed roots and what lies below them,
    and nothing when no root is configured; whatever it accepts,
    [SandboxManager.is_path_allowed] accepts for the same roots. *)
Theorem context_check_is_exact (resolve : Path -> Path) (ctx : Ctx.Context)
    (config : Sandbox.SandboxConfig) (p : Path) :
  (Ctx.is_path_allowed resolve ctx p = true <->
   Spec.path_allowed resolve (Ctx.allowed_paths ctx) p) /\
  (Ctx.allowed_paths ctx = [] -> Ctx.is_path_allowed resolve ctx p = false) /\
  (Sandbox.allowed_paths config = Ctx.allowed_paths ctx ->
   Ctx.is_path_allowed resolve ctx p = true ->
   Sandbox.is_path_allowed resolve config p = true).
Proof.
  split_and!.
  - apply SandboxFacts.context_is_path_allowed_iff.
  - intros Hnone. unfold Ctx.is_path_allowed. by rewrite Hnone.
  - intros Hsame Hctx. apply SandboxFacts.is_path_allowed_complete.
    rewrite Hsame. by apply SandboxFacts.context_is_path_allowed_iff.
Qed.

End PathCheckFacts.

(** ** Faults of the model and ill-formed parameters *)

Module LoopFaultFacts.
Import Loop LoopFacts.

Section Faults.
Context {World : Type}.
Variable resolve : Path -> Path.
Variable json_loads : string -> option pyval.
Variable repr_str : string -> string.
Variable now : nat -> Z.

#[local] Abbreviation execute_tool := (_execute_tool (World:=World) resolve repr_str).
#[local] Abbreviation while_loop := (Loop.while_loop (World:=World) resolve json_loads repr_str now).

(** X21. When the model backend raises in some pass, the run ends in
    that pass: the result has [success = false], the text of the
    exception as error, the pass's counter and the observations made
    so far; the loop is left in the error state, the "error" event is
    the last one sent, and no tool is called. *)
Theorem model_fault_ends_run (self : Agent World) (remaining : nat) (iterations : Z)
    (context : Ctx.Context) (st : LoopState World) (e : exn) (w : World) :
  llm self (Ctx.get_messages_for_llm context) (world (thinking self (iterations + 1) st))
  = (Raise e, w) ->
  exists st',
    while_loop self (S remaining) iterations context st
    = ({| success := false;
          output := PStr "";
          observations := Ctx.observations context;
          error := Some (exn_msg e);
          iterations := iterations + 1 |}, st') /\
    state st' = ERROR /\
    last (events st') = Some ("error", PDict [("error", PStr (exn_msg e))]) /\
    calls st' = calls st.
Proof.
  intros Hllm. cbn [Loop.while_loop]. unfold Loop.iteration, _get_decision.
  rewrite Hllm. unfold on_exception. eexists. split; [reflexivity|].
  split_and!; try reflexivity. cbn. apply last_snoc.
Qed.

(** X22. Parameters that are not a mapping never reach a tool. For a
    tool without path check they come back as a failure result and the
    state is left as it was; for a tool that requires the path check
    the dispatcher itself raises [AttributeError], which only the
    handler of [run] catches. *)
Theorem non_mapping_params_never_execute (self : Agent World) (key : string)
    (tool : Tool World) (params : pyval) (context : Ctx.Context) (st : LoopState World) :
  tools self !! key = Some tool ->
  (forall d, params <> PDict d) ->
  execute_tool self (PStr key) params context st
  = if requires_path_check tool
    then (Raise (Exn "AttributeError"
                     ("'" ++ type_name params ++ "' object has no attribute 'get'")), st)
    else (Ok (Tools.failure (execute_name tool
                             ++ "() argument after ** must be a mapping, not "
                             ++ type_name params)), st).
Proof.
  intros Htool Hshape. unfold _execute_tool, path_gate.
  rewrite (find_tool_registered _ _ _ Htool).
  destruct (requires_path_check tool);
    destruct params as [| | | | | |d]; try reflexivity; by destruct (Hshape d).
Qed.
End Faults.

End LoopFaultFacts.

(** ** The properties at concrete inputs *)

Module MoreWitnesses.
Import Examples MoreExamples.

Lemma remove_allowed_path_undoes_add_witness :
  SandboxOps.remove_allowed_path resolve_plain
    (SandboxOps.add_allowed_path resolve_plain project_only (path_of_string "/srv/data"))
    (path_of_string "/srv/data")
  = project_only.
Proof.
  apply (proj1 (SandboxOpsFacts.remove_allowed_path_undoes_add resolve_plain project_only
                  (path_of_string "/srv/data"))).
  intros H. apply list_elem_of_singleton in H. discriminate H.
Defined.

Lemma add_message_is_last_witness :
  last (Ctx.messages (Ctx.add_message full_context Ctx.USER "hello" [] 7))
  = Some (Ctx.MkMessage Ctx.USER "hello" 7 []).
Proof.
  apply (HistoryMoreFacts.add_message_is_last full_context Ctx.USER "hello" [] 7).
  vm_compute. discriminate.
Defined.

(** The store of that witness did evict: its oldest user message is
    gone. *)
Example full_context_evicts :
  Ctx.messages (Ctx.add_message full_context Ctx.USER "hello" [] 7)
  = [system_msg "prompt" 0; user_msg "b" 2; Ctx.MkMessage Ctx.USER "hello" 7 []].
Proof. vm_compute. reflexivity. Qed.

Lemma observations_are_kept_witness :
  last (Ctx.messages (CtxOps.add_observations repr_sample full_context
                        [(failed_observation, 5)]))
  = Some (CtxOps.tool_message repr_sample failed_observation 5).
Proof.
  apply (proj2 (HistoryMoreFacts.observations_are_kept repr_sample full_context
                  [(failed_observation, 5)])).
  - vm_compute. discriminate.
  - reflexivity.
Defined.

Lemma trim_only_removes_witness :
  Ctx.trim 2 [system_msg "s" 0; user_msg "a" 1; user_msg "b" 2]
  `sublist_of` [system_msg "s" 0; user_msg "a" 1; user_msg "b" 2].
Proof.
  apply (proj1 (HistoryMoreFacts.trim_only_removes 2
                  [system_msg "s" 0; user_msg "a" 1; user_msg "b" 2]
                  ltac:(vm_compute; repeat constructor; discriminate))).
Defined.

Lemma unknown_tool_fails_witness :
  Loop._execute_tool resolve_plain repr_sample two_tool_agent (PStr "shell") (PDict [])
    project_context idle_state
  = (Ok (Tools.failure "Unknown tool: shell"), idle_state).
Proof.
  apply (LoopMoreFacts.unknown_tool_fails resolve_plain repr_sample two_tool_agent
           (PStr "shell") (PDict []) project_context idle_state).
  - discriminate.
  - discriminate.
  - intros s Hs. injection Hs as <-. vm_compute. reflexivity.
Defined.

Lemma tool_fault_becomes_failure_witness :
  exists st',
    Loop._execute_tool resolve_plain repr_sample two_tool_agent (PStr "web")
      (PDict [("url", PStr "https://example.org")]) project_context idle_state
    = (Ok (Tools.failure "request timed out"), st').
Proof.
  destruct (LoopMoreFacts.tool_fault_becomes_failure resolve_plain repr_sample two_tool_agent
              "web" flaky_tool (PDict [("url", PStr "https://example.org")])
              project_context idle_state
              ltac:(vm_compute; reflexivity) ltac:(reflexivity))
    as (result & st' & Hexec & Hcall).
  destruct (Hcall _ eq_refl) as (_ & _ & Hresult). cbn in Hresult. subst result.
  by exists st'.
Defined.

Lemma allowed_path_is_executed_witness :
  exists st',
    Loop._execute_tool resolve_plain repr_sample two_tool_agent (PStr "file")
      (PDict [("path", PStr "/home/user/project/summary.txt")]) project_context idle_state
    = (Ok (Tools.MkToolResult true (PStr "written") None None), st') /\
    Loop.calls st' = [("file", [("path", PStr "/home/user/project/summary.txt")])].
Proof.
  destruct (LoopMoreFacts.allowed_path_is_executed resolve_plain repr_sample two_tool_agent
              "file" file_tool [("path", PStr "/home/user/project/summary.txt")]
              "/home/user/project/summary.txt" project_context idle_state
              ltac:(vm_compute; reflexivity) ltac:(reflexivity) ltac:(reflexivity)
              ltac:(vm_compute; reflexivity))
    as (result & st' & Hexec & Hcalls & _ & Hresult).
  cbn in Hresult. subst result. by exists st'.
Defined.

Lemma scenario_second_context_reachable :
  LoopOps.reachable resolve_plain json_loads_scenario repr_sample clock_sample
    scenario_agent scenario_context scenario_second_context.
Proof.
  eapply LoopOps.reachable_pass with (context := scenario_context) (iterations := 1)
                                     (st := scenario_state).
  - apply LoopOps.reachable_start.
  - vm_compute. reflexivity.
Qed.

Lemma run_history_keeps_prompt_witness :
  Ctx.py_len (Ctx.messages scenario_second_context) <= 50 /\
  Spec.system_count (Ctx.messages scenario_second_context) = 1.
Proof.
  destruct (LoopMoreFacts.run_history_keeps_prompt resolve_plain json_loads_scenario
              repr_sample clock_sample scenario_agent "create summary.txt"
              (Some ["/home/user/project"]) scenario_start scenario_second_context
              scenario_second_context_reachable)
    as (Hlen & Hcount & _).
  by split.
Defined.

Lemma uuid_strokes_injective (i j : nat) : uuid_strokes i = uuid_strokes j -> i = j.
Proof.
  revert j. induction i as [|i IH]; intros [|j] H; try done.
  cbn in H. injection H as H. f_equal. by apply IH.
Qed.

Lemma two_entries_well_formed :
  Forall (fun entry : pyval => exists d v, entry = PDict d /\ assoc "description" d = Some v)
         [subtask "a"; subtask "b"].
Proof. repeat constructor; eexists _, _; split; reflexivity. Qed.

Lemma batch_creates_one_task_per_entry_witness :
  exists created self',
    Subagent.create_tasks uuid_strokes clock_sample empty_manager
      [subtask "a"; subtask "b"] ["/home/user/project"]
    = (Ok created, self') /\
    map Subagent.id created = ["" ; "i"] /\
    forall task, task ∈ created -> SubagentOps.get_task self' (Subagent.id task) = Some task.
Proof.
  destruct (SubagentMoreFacts.batch_creates_one_task_per_entry uuid_strokes clock_sample
              ["/home/user/project"] [subtask "a"; subtask "b"] empty_manager
              two_entries_well_formed)
    as (created & self' & Hcreate & Hids & _ & _ & _ & Hfind).
  exists created, self'. split_and!; [done|done|].
  exact (Hfind uuid_strokes_injective).
Defined.

Lemma malformed_entry_stops_batch_witness :
  exists self',
    Subagent.spawn_and_wait uuid_strokes clock_sample all_succeed empty_manager
      (PList [subtask "a"; PDict [("task", PStr "b")]]) ["/home/user/project"]
    = (Raise (Exn "KeyError" "'description'"), self') /\
    Subagent.launched self' = [] /\
    Subagent.drawn self' = 1%nat.
Proof.
  destruct (SubagentMoreFacts.malformed_entry_stops_batch uuid_strokes clock_sample all_succeed
              ["/home/user/project"] [subtask "a"] [] (PDict [("task", PStr "b")])
              (Exn "KeyError" "'description'") empty_manager
              ltac:(repeat constructor; eexists _, _; split; reflexivity)
              ltac:(reflexivity))
    as (created & self' & _ & _ & Hspawn & Hlaunched & Hdrawn).
  by exists self'.
Defined.

Lemma batch_succeeds_with_one_child_witness :
  exists result self',
    Subagent.execute uuid_strokes clock_sample all_succeed ["/home/user/project"]
      [("subtasks", PList [subtask "a"])] empty_manager
    = (Ok result, self') /\
    Tools.error result = None.
Proof.
  destruct (SubagentMoreFacts.batch_succeeds_with_one_child uuid_strokes clock_sample
              all_succeed ["/home/user/project"] [("subtasks", PList [subtask "a"])]
              [subtask "a"] empty_manager
              (snd (Subagent.spawn_and_wait uuid_strokes clock_sample all_succeed
                      empty_manager (PList [subtask "a"]) ["/home/user/project"]))
              [Subagent.MkSubagentResult "" true (PStr "ok") "Completed: ok" None]
              ltac:(reflexivity) ltac:(discriminate) ltac:(vm_compute; discriminate)
              ltac:(reflexivity))
    as (result & successful & failed & Hexec & _ & Herror & _).
  by eexists _, _.
Defined.

Lemma model_fault_ends_run_witness :
  exists st',
    Loop.while_loop resolve_plain json_loads_sample repr_sample clock_sample
      broken_agent 20%nat 0 project_context idle_state
    = ({| Loop.success := false;
          Loop.output := PStr "";
          Loop.observations := [];
          Loop.error := Some "model backend unreachable";
          Loop.iterations := 1 |}, st') /\
    Loop.state st' = Loop.ERROR.
Proof.
  destruct (LoopFaultFacts.model_fault_ends_run resolve_plain json_loads_sample repr_sample
              clock_sample broken_agent 19%nat 0 project_context idle_state
              (Exn "ConnectionError" "model backend unreachable") tt ltac:(reflexivity))
    as (st' & Hloop & Hstate & _).
  by exists st'.
Defined.

Lemma non_mapping_params_never_execute_witness :
  Loop._execute_tool resolve_plain repr_sample two_tool_agent (PStr "web")
    (PList [PStr "https://example.org"]) project_context idle_state
  = (Ok (Tools.failure
           "openwork.tools.web_tool.WebTool.execute() argument after ** must be a mapping, not list"),
     idle_state).
Proof.
  apply (LoopFaultFacts.non_mapping_params_never_execute resolve_plain repr_sample
           two_tool_agent "web" flaky_tool (PList [PStr "https://example.org"])
           project_context idle_state ltac:(vm_compute; reflexivity) ltac:(discriminate)).
Defined.

Lemma summary_of_success_is_bounded_witness :
  SubagentOps._summarize_result repr_sample long_answer
  = "Completed: All files were summarised." /\
  SubagentOps._summarize_result repr_sample verbose_answer
  = "Completed: " ++ repeat_text 50 "0123456789" ++ "..." /\
  Pathlib.len (SubagentOps._summarize_result repr_sample verbose_answer) = 514.
Proof.
  split_and!.
  - apply (proj1 (SummaryFacts.summary_of_success_is_bounded repr_sample long_answer
                    ltac:(reflexivity))).
    vm_compute. discriminate.
  - rewrite (proj1 (proj2 (SummaryFacts.summary_of_success_is_bounded repr_sample
                             verbose_answer ltac:(reflexivity))))
      by (vm_compute; reflexivity).
    vm_compute. reflexivity.
  - vm_compute. reflexivity.
Defined.

End MoreWitnesses.
